(** * tnkb: Indonesian vehicle plate decoder -- a shallow embedding

    The development follows [tnkb/client.py], [tnkb/models.py] and
    [tnkb/exceptions.py].  Python [str] values are modelled by Rocq
    strings over 7-bit text: the character predicates below are Python's
    on the code points 0..127, and a byte above 127 stands for a symbol
    that is neither a letter, a digit nor white space and has no case. *)

From Stdlib Require Import ZArith NArith Ascii String List Bool Lia.
From Stdlib Require Import DecimalString Floats.
From stdpp Require Import base option strings gmap sorting.

(** ** Python strings *)

Module PyStr.

Definition ord (c : ascii) : N := N_of_ascii c.

Definition between (lo hi : N) (c : ascii) : bool :=
  ((lo <=? ord c) && (ord c <=? hi))%N.

(** [str.isspace] on one character, also the class [\s] of [re]:
    TAB, LF, VT, FF, CR, the separators FS, GS, RS, US and the blank. *)
Definition isspace (c : ascii) : bool := between 9 13 c || between 28 32 c.

(** The class [\d]. *)
Definition isdigit (c : ascii) : bool := between 48 57 c.

(** The class [[A-Z]]. *)
Definition isAZ (c : ascii) : bool := between 65 90 c.

Definition islower (c : ascii) : bool := between 97 122 c.

Definition upper_char (c : ascii) : ascii :=
  if islower c then ascii_of_N (ord c - 32) else c.


(** [s.upper()] and [s.lower()]. *)
Fixpoint upper (s : string) : string :=
  match s with
  | EmptyString => EmptyString
  | String c r => String (upper_char c) (upper r)
  end.


(** [not s] for a string. *)
Definition is_empty (s : string) : bool :=
  match s with EmptyString => true | String _ _ => false end.

Definition flush (word : string) : list string :=
  if is_empty word then [] else [word].

(** The scanning loop of [s.split()]: [word] is the run of characters
    read since the last white space. *)
Fixpoint split_from (word : string) (s : string) : list string :=
  match s with
  | EmptyString => flush word
  | String c r =>
      if isspace c then (flush word ++ split_from EmptyString r)%list
      else split_from (word +:+ String c EmptyString) r
  end.

(** [s.split()], with no separator given: runs of white space separate
    the words, and no empty word is produced. *)
Definition split (s : string) : list string := split_from EmptyString s.

(** [sep.join(words)]. *)
Definition join (sep : string) (words : list string) : string :=
  String.concat sep words.

Fixpoint all_chars (p : ascii -> bool) (s : string) : bool :=
  match s with
  | EmptyString => true
  | String c r => p c && all_chars p r
  end.

(** A word, as [split] produces them. *)
Definition is_word (w : string) : bool :=
  negb (is_empty w) && all_chars (fun c => negb (isspace c)) w.

End PyStr.

(** ** The [re] fragment that [PLATE_PATTERN] is written in *)

Module Re.
Import PyStr.

Inductive cclass := UpperAZ | Space | Digit.

Definition in_class (k : cclass) (c : ascii) : bool :=
  match k with
  | UpperAZ => isAZ c
  | Space => isspace c
  | Digit => isdigit c
  end.

(** One quantified class [k{rmin,rmax}], inside a capture group or not. *)
Record piece := Piece
  { cls : cclass; rmin : nat; rmax : nat; captured : bool }.

(** [$] without [re.MULTILINE]: the end of the string, or the position
    just before a line feed that ends the string. *)
Definition at_end (s : string) : bool :=
  match s with
  | EmptyString => true
  | String c EmptyString => (ord c =? 10)%N
  | _ => false
  end.

(** Exactly [n] characters of class [k] at the front of [s]. *)
Fixpoint take_class (k : cclass) (n : nat) (s : string)
  : option (string * string) :=
  match n with
  | O => Some (EmptyString, s)
  | S n' =>
      match s with
      | String c r =>
          if in_class k c then
            match take_class k n' r with
            | Some (g, rest) => Some (String c g, rest)
            | None => None
            end
          else None
      | EmptyString => None
      end
  end.

(** A greedy quantifier: the counts [lo + k], [lo + k - 1], ..., [lo] are
    tried in this order, and the first that lets the rest match wins. *)
Fixpoint greedy {A} (attempt : nat -> option A) (lo k : nat) : option A :=
  match attempt (lo + k) with
  | Some r => Some r
  | None =>
      match k with
      | O => None
      | S k' => greedy attempt lo k'
      end
  end.

(** [pattern.match(s)] for [^ p1 p2 ... pn $]: the groups of the first
    match the backtracking search finds, or [None]. *)
Fixpoint match_pieces (ps : list piece) (s : string) : option (list string) :=
  match ps with
  | [] => if at_end s then Some [] else None
  | p :: ps' =>
      if (rmax p <? rmin p)%nat then None
      else
        greedy
          (fun n =>
             match take_class (cls p) n s with
             | Some (g, rest) =>
                 match match_pieces ps' rest with
                 | Some gs => Some (if captured p then g :: gs else gs)
                 | None => None
                 end
             | None => None
             end)
          (rmin p) (rmax p - rmin p)
  end.

End Re.

(** ** Exceptions: [tnkb/exceptions.py], and those of [requests] and of the
    builtins that the client can meet *)

Module Exn.

(** The classes of [requests.exceptions] that a request or the decoding
    of its body raises. *)
Inductive requests_exc :=
| RequestException | HTTPError | ConnectionError | ProxyError | SSLError
| Timeout | ConnectTimeout | ReadTimeout | TooManyRedirects | RetryError
| InvalidJSONError | RequestsJSONDecodeError.

Inductive exn_class :=
(* tnkb/exceptions.py *)
| TNKBError | InvalidPlateError | APIError | NetworkError | TimeoutError
| ValidationError
(* requests.exceptions *)
| Requests (r : requests_exc)
(* builtins and json *)
| PyException | ValueError | JSONDecodeError | AttributeError | NameError
| KeyError.

#[export] Instance requests_exc_eq_dec : EqDecision requests_exc.
Proof. solve_decision. Defined.

#[export] Instance exn_class_eq_dec : EqDecision exn_class.
Proof. solve_decision. Defined.

(** The classes a class derives from, itself first. *)
Definition ancestors (c : exn_class) : list exn_class :=
  match c with
  | TNKBError => [TNKBError; PyException]
  | InvalidPlateError => [InvalidPlateError; TNKBError; PyException]
  | APIError => [APIError; TNKBError; PyException]
  | NetworkError => [NetworkError; APIError; TNKBError; PyException]
  | TimeoutError => [TimeoutError; APIError; TNKBError; PyException]
  | ValidationError => [ValidationError; TNKBError; PyException]
  | Requests RequestException => [Requests RequestException; PyException]
  | Requests HTTPError =>
      [Requests HTTPError; Requests RequestException; PyException]
  | Requests ConnectionError =>
      [Requests ConnectionError; Requests RequestException; PyException]
  | Requests ProxyError =>
      [Requests ProxyError; Requests ConnectionError;
       Requests RequestException; PyException]
  | Requests SSLError =>
      [Requests SSLError; Requests ConnectionError;
       Requests RequestException; PyException]
  | Requests Timeout =>
      [Requests Timeout; Requests RequestException; PyException]
  | Requests ConnectTimeout =>
      [Requests ConnectTimeout; Requests ConnectionError; Requests Timeout;
       Requests RequestException; PyException]
  | Requests ReadTimeout =>
      [Requests ReadTimeout; Requests Timeout; Requests RequestException;
       PyException]
  | Requests TooManyRedirects =>
      [Requests TooManyRedirects; Requests RequestException; PyException]
  | Requests RetryError =>
      [Requests RetryError; Requests RequestException; PyException]
  | Requests InvalidJSONError =>
      [Requests InvalidJSONError; Requests RequestException; PyException]
  | Requests RequestsJSONDecodeError =>
      [Requests RequestsJSONDecodeError; Requests InvalidJSONError;
       Requests RequestException; JSONDecodeError; ValueError; PyException]
  | PyException => [PyException]
  | ValueError => [ValueError; PyException]
  | JSONDecodeError => [JSONDecodeError; ValueError; PyException]
  | AttributeError => [AttributeError; PyException]
  | NameError => [NameError; PyException]
  | KeyError => [KeyError; PyException]
  end.

Definition issubclass (c d : exn_class) : bool :=
  bool_decide (d ∈ ancestors c).

(** A raised exception; [exn_msg] is what [str(e)] gives. *)
Record exn := Exn { exn_cls : exn_class; exn_msg : string }.

Definition isinstance (e : exn) (d : exn_class) : bool :=
  issubclass (exn_cls e) d.

Inductive result (A : Type) :=
| Ok (a : A)
| Raise (e : exn).
Arguments Ok {A} a.
Arguments Raise {A} e.

Definition raise {A} (c : exn_class) (msg : string) : result A :=
  Raise (Exn c msg).

Definition rbind {A B} (r : result A) (k : A -> result B) : result B :=
  match r with
  | Ok a => k a
  | Raise e => Raise e
  end.

(** [try: body  except c: handler]. *)
Definition rcatch {A} (body : result A) (c : exn_class)
    (handler : exn -> result A) : result A :=
  match body with
  | Ok a => Ok a
  | Raise e => if isinstance e c then handler e else Raise e
  end.

Definition succeeds {A} (r : result A) : Prop := exists a, r = Ok a.

Definition raises {A} (r : result A) (c : exn_class) : Prop :=
  exists msg, r = Raise (Exn c msg).

End Exn.

Export Exn.

#[export] Instance result_ret : MRet result := @Ok.
#[export] Instance result_bind : MBind result := fun A B k r => rbind r k.

(** ** Python values that cross the API boundary, as [json] decodes them *)

Module Value.

#[warnings="-register-all"]
Inductive value :=
| VNone
| VBool (b : bool)
| VInt (n : Z)
| VFloat (f : PrimFloat.float)
| VStr (s : string)
| VList (l : list value)
| VDict (d : gmap string value).

(** [bool(v)], as [not v] and [if v] use it. *)
Definition truthy (v : value) : bool :=
  match v with
  | VNone => false
  | VBool b => b
  | VInt n => negb (n =? 0)%Z
  | VFloat f => negb (PrimFloat.eqb f 0%float)
  | VStr s => negb (PyStr.is_empty s)
  | VList l => match l with [] => false | _ :: _ => true end
  | VDict d => negb (bool_decide (d = ∅))
  end.

Definition type_name (v : value) : string :=
  match v with
  | VNone => "NoneType"
  | VBool _ => "bool"
  | VInt _ => "int"
  | VFloat _ => "float"
  | VStr _ => "str"
  | VList _ => "list"
  | VDict _ => "dict"
  end.

Definition no_attribute {A} (v : value) (attr : string) : result A :=
  raise AttributeError
    ("'" +:+ type_name v +:+ "' object has no attribute '" +:+ attr +:+ "'").

(** [v.get(key, dflt)]: only a dict has the method. *)
Definition get (v : value) (key : string) (dflt : value) : result value :=
  match v with
  | VDict d => Ok (default dflt (d !! key))
  | _ => no_attribute v "get"
  end.

(** [v.upper()]: of the decoded values only a string has the method. *)
Definition upper (v : value) : result string :=
  match v with
  | VStr s => Ok (PyStr.upper s)
  | _ => no_attribute v "upper"
  end.

End Value.

Export Value(value, VNone, VBool, VInt, VFloat, VStr, VList, VDict).

(** ** [tnkb/models.py] *)

Module Models.

(** One entry of the table, the dict [{'name': n, 'province': p}]. *)
Definition region (n p : string) : gmap string string :=
  <["name" := n]> (<["province" := p]> ∅).

(** Indonesian region codes mapping. *)
Definition REGION_CODES : gmap string (gmap string string) :=
  list_to_map [
    ("A", region "DKI Jakarta" "Jakarta");
    ("B", region "Jawa Barat" "West Java");
    ("C", region "Jawa Tengah" "Central Java");
    ("D", region "Bandung" "West Java");
    ("E", region "Pekalongan" "Central Java");
    ("F", region "Purwokerto" "Central Java");
    ("G", region "Yogyakarta" "Yogyakarta");
    ("H", region "Surabaya" "East Java");
    ("K", region "Semarang" "Central Java");
    ("L", region "Surabaya" "East Java");
    ("M", region "Madura" "East Java");
    ("N", region "Malang" "East Java");
    ("P", region "Banyumas" "Central Java");
    ("R", region "Pati" "Central Java");
    ("S", region "Karanganyar" "Central Java");
    ("T", region "Sidoarjo" "East Java");
    ("U", region "Tegal" "Central Java");
    ("W", region "Mataram" "West Nusa Tenggara");
    ("AA", region "Medan" "North Sumatra");
    ("AB", region "Padang" "West Sumatra");
    ("AD", region "Aceh" "Aceh");
    ("AE", region "Pekanbaru" "Riau");
    ("AG", region "Jambi" "Jambi");
    ("BA", region "Bengkulu" "Bengkulu");
    ("BB", region "Lampung" "Lampung");
    ("BC", region "Palembang" "South Sumatra");
    ("BD", region "Pangkal Pinang" "Bangka Belitung");
    ("BE", region "Bandar Lampung" "Lampung");
    ("BK", region "Batam" "Riau Islands");
    ("BM", region "Banjarmasin" "South Kalimantan");
    ("BN", region "Balikpapan" "East Kalimantan");
    ("BP", region "Pontianak" "West Kalimantan");
    ("BR", region "Samarinda" "East Kalimantan");
    ("BS", region "Palangka Raya" "Central Kalimantan");
    ("BT", region "Banjarmasin" "South Kalimantan");
    ("CC", region "Manado" "North Sulawesi");
    ("CD", region "Gorontalo" "Gorontalo");
    ("CT", region "Palu" "Central Sulawesi");
    ("DA", region "Makassar" "South Sulawesi");
    ("DB", region "Pare-Pare" "South Sulawesi");
    ("DC", region "Kendari" "Southeast Sulawesi");
    ("DD", region "Baubau" "Southeast Sulawesi");
    ("DE", region "Ambon" "Maluku");
    ("EB", region "Manado" "North Sulawesi");
    ("ED", region "Denpasar" "Bali");
    ("EE", region "Mataram" "West Nusa Tenggara");
    ("EF", region "Kupang" "East Nusa Tenggara");
    ("KB", region "Jayapura" "Papua");
    ("PA", region "Pontianak" "West Kalimantan") ].

(** The dataclass [VehicleInfo]; [created_at] is the reading of the clock
    that [__post_init__] stores. *)
Record VehicleInfo := mkVehicleInfo
  { plate_number : string;
    region_code : string;
    region_name : string;
    vehicle_type : value;
    is_valid : bool;
    details : value;
    created_at : Z }.

End Models.

Export Models.

(** ** What a client acts on: the remote service, the clock and the log *)

Module World.

Record request := mkRequest
  { req_method : string;
    req_url : string;
    req_params : gmap string string;
    req_timeout : Z;
    req_verify : bool }.

(** What [response.json()] does. A body that is not JSON raises
    [requests.exceptions.JSONDecodeError] since requests 2.27
    ([by_requests = true]) and the decoder's own [ValueError] subclass in
    the older versions that [setup.py] also admits. *)
Inductive json_outcome :=
| JsonValue (v : value)
| JsonFails (by_requests : bool) (msg : string).

Record response := mkResponse
  { status_code : Z;
    reason : string;
    url : string;
    body : json_outcome }.

(** What [session.get] and [session.post] do, retries included. *)
Inductive http_outcome :=
| Fails (r : requests_exc) (msg : string)
| Responds (resp : response).

(** The surroundings of a run: the outcome of the n-th request, the n-th
    reading of the clock, and [str] on the values of a decoded body. *)
Record Env := mkEnv
  { send : nat -> request -> http_outcome;
    now : nat -> Z;
    str_value : value -> string }.

Record World := mkWorld
  { requests_sent : nat;
    clock_reads : nat;
    log : list (string * string) }.

Definition M (A : Type) : Type := World -> result A * World.

#[export] Instance M_ret : MRet M := fun A a w => (Ok a, w).
#[export] Instance M_bind : MBind M := fun A B k m w =>
  match m w with
  | (Ok a, w') => k a w'
  | (Raise e, w') => (Raise e, w')
  end.

Definition lift {A} (r : result A) : M A := fun w => (r, w).

Definition mraise {A} (c : exn_class) (msg : string) : M A :=
  lift (raise c msg).

(** [try: body] followed by [except] clauses, tried in their order. *)
Definition try_except {A} (body : M A)
    (handlers : list (exn_class * (exn -> M A))) : M A := fun w =>
  match body w with
  | (Ok a, w') => (Ok a, w')
  | (Raise e, w') =>
      match List.find (fun h => isinstance e (fst h)) handlers with
      | Some h => snd h e w'
      | None => (Raise e, w')
      end
  end.

Definition session_request (env : Env) (rq : request) : M response := fun w =>
  let w' := mkWorld (S (requests_sent w)) (clock_reads w) (log w) in
  match send env (requests_sent w) rq with
  | Fails r msg => (raise (Requests r) msg, w')
  | Responds resp => (Ok resp, w')
  end.

Definition str_Z (n : Z) : string := NilEmpty.string_of_int (Z.to_int n).

(** [response.raise_for_status()]. *)
Definition raise_for_status (resp : response) : result unit :=
  let tail := reason resp +:+ " for url: " +:+ url resp in
  if ((400 <=? status_code resp) && (status_code resp <? 500))%Z then
    raise (Requests HTTPError)
      (str_Z (status_code resp) +:+ " Client Error: " +:+ tail)
  else if ((500 <=? status_code resp) && (status_code resp <? 600))%Z then
    raise (Requests HTTPError)
      (str_Z (status_code resp) +:+ " Server Error: " +:+ tail)
  else Ok tt.

(** [response.json()]. *)
Definition json (resp : response) : result value :=
  match body resp with
  | JsonValue v => Ok v
  | JsonFails true msg => raise (Requests RequestsJSONDecodeError) msg
  | JsonFails false msg => raise JSONDecodeError msg
  end.

(** [datetime.now()]. *)
Definition datetime_now (env : Env) : M Z := fun w =>
  (Ok (now env (clock_reads w)),
   mkWorld (requests_sent w) (S (clock_reads w)) (log w)).

Definition logger_log (level msg : string) : M unit := fun w =>
  (Ok tt, mkWorld (requests_sent w) (clock_reads w) (log w ++ [(level, msg)])).

(** [VehicleInfo(...)] with no [created_at]: [__post_init__] reads the
    clock. *)
Definition VehicleInfo_new (env : Env) (plate region_code region_name : string)
    (vehicle_type : value) (is_valid : bool) (details : value)
  : M VehicleInfo :=
  t ← datetime_now env;
  mret (mkVehicleInfo plate region_code region_name vehicle_type is_valid
          details t).

End World.

Export World.

(** ** [tnkb/client.py]: the methods of [TNKBClient] *)

Module Client.
Import Re.

Definition API_BASE_URL : string := "https://cek-nopol-kendaraan.p.rapidapi.com".
Definition CHECK_KENDARAAN_ENDPOINT : string := API_BASE_URL +:+ "/check".

(** [re.compile(r'^([A-Z]{1,2})\s?(\d{1,4})\s?([A-Z]{1,3})$')] *)
Definition PLATE_PATTERN : list piece :=
  [ Piece UpperAZ 1 2 true;
    Piece Space 0 1 false;
    Piece Digit 1 4 true;
    Piece Space 0 1 false;
    Piece UpperAZ 1 3 true ].

Definition _validate_plate_format (plate_number : string) : result unit :=
  match match_pieces PLATE_PATTERN plate_number with
  | None =>
      raise InvalidPlateError
        ("Invalid plate format: " +:+ plate_number +:+ ". " +:+
         "Expected format: '[A-Z] [1-4 DIGITS] [A-Z]' (e.g., 'B 1234 ABC')")
  | Some _ => Ok tt
  end.

Definition _normalize_plate (plate_number : string) : result string :=
  if PyStr.is_empty plate_number then
    raise InvalidPlateError "Plate number cannot be empty"
  else
    let normalized := PyStr.join " " (PyStr.split (PyStr.upper plate_number)) in
    _validate_plate_format normalized;;
    Ok normalized.

Definition _parse_plate (plate_number : string)
  : result (string * string * string) :=
  match match_pieces PLATE_PATTERN plate_number with
  | None => raise InvalidPlateError ("Cannot parse plate: " +:+ plate_number)
  | Some [region_code; digits; letters] => Ok (region_code, digits, letters)
  | Some _ =>
      raise ValueError "wrong number of values to unpack (expected 3)"
  end.

Definition validate_plate (plate_number : string) : result bool :=
  rcatch (_validate_plate_format plate_number;; Ok true)
    InvalidPlateError (fun _ => Ok false).

Definition get_region_info (region_code : string)
  : result (option (gmap string string)) :=
  let region_code := PyStr.upper region_code in
  if bool_decide (region_code ∈ dom REGION_CODES) then
    match REGION_CODES !! region_code with
    | Some info => Ok (Some info)
    | None => raise KeyError region_code
    end
  else Ok None.

(** The attributes of a client that the methods read. *)
Record TNKBClient := mkClient { timeout : Z; verify_ssl : bool }.

Section Methods.

Variable env : Env.
Variable self : TNKBClient.

Definition _call_api (endpoint : string) (params : gmap string string)
    (method : string) : M value :=
  try_except
    (response ←
       (if String.eqb (PyStr.upper method) "GET" then
          session_request env
            (mkRequest "GET" endpoint params (timeout self) (verify_ssl self))
        else
          session_request env
            (mkRequest "POST" endpoint params (timeout self) (verify_ssl self)));
     lift (raise_for_status response);;
     data ← lift (json response);
     success ← lift (Value.get data "success" VNone);
     if negb (Value.truthy success) then
       message ← lift (Value.get data "message" (VStr "Unknown error"));
       mraise APIError ("API error: " +:+ str_value env message)
     else
       lift (Value.get data "data" data))
    [ (Requests Timeout, fun _ =>
         mraise TimeoutError
           ("API request timeout after " +:+ str_Z (timeout self) +:+ "s"));
      (Requests ConnectionError, fun e =>
         mraise NetworkError ("Network connection error: " +:+ exn_msg e));
      (Requests RequestException, fun e =>
         mraise APIError ("API request failed: " +:+ exn_msg e));
      (ValueError, fun e =>
         mraise APIError ("Invalid API response: " +:+ exn_msg e)) ].

Definition _build_vehicle_info (api_response : value) (plate_number : string)
  : M VehicleInfo :=
  code ← lift (Value.get api_response "region_code" (VStr ""));
  region_code ← lift (Value.upper code);
  let region_info := default ∅ (REGION_CODES !! region_code) in
  vehicle_type ← lift (Value.get api_response "vehicle_type" (VStr "Unknown"));
  VehicleInfo_new env plate_number region_code
    (default "Unknown" (region_info !! "name"))
    vehicle_type true api_response.

Definition _parse_locally (plate_number region_code digits : string)
  : M VehicleInfo :=
  let region_code := PyStr.upper region_code in
  let region_info := default ∅ (REGION_CODES !! region_code) in
  VehicleInfo_new env plate_number region_code
    (default "Unknown Region" (region_info !! "name"))
    (VStr "Car") true
    (VDict (<["source" := VStr "local_parsing"]>
           (<["region_code" := VStr region_code]>
           (<["digits" := VStr digits]>
           (<["note" := VStr "Parsed locally without API"]> ∅))))).

Definition _create_invalid_vehicle (plate error : string) : M VehicleInfo :=
  VehicleInfo_new env plate "" "Unknown" (VStr "Unknown") false
    (VDict (<["error" := VStr error]> ∅)).

Definition check_plate (plate_number : string) : M VehicleInfo :=
  normalized_plate ← lift (_normalize_plate plate_number);
  '(region_code, digits, letters) ← lift (_parse_plate normalized_plate);
  try_except
    (response ← _call_api CHECK_KENDARAAN_ENDPOINT
                  (<["nopol" := normalized_plate]> ∅) "GET";
     _build_vehicle_info response normalized_plate)
    [ (APIError, fun e =>
         logger_log "WARNING"
           ("API call failed: " +:+ exn_msg e +:+
            ", falling back to local parsing");;
         _parse_locally normalized_plate region_code digits) ].

(** The loop of [bulk_check]; [results] is the list built so far. *)
Fixpoint bulk_check_from (results : list VehicleInfo)
    (plate_numbers : list string) : M (list VehicleInfo) :=
  match plate_numbers with
  | [] => mret results
  | plate :: rest =>
      results ←
        try_except
          (v ← check_plate plate; mret (results ++ [v])%list)
          [ (TNKBError, fun e =>
               logger_log "ERROR"
                 ("Failed to check plate " +:+ plate +:+ ": " +:+ exn_msg e);;
               v ← _create_invalid_vehicle plate (exn_msg e);
               mret (results ++ [v])%list) ];
      bulk_check_from results rest
  end.

Definition bulk_check (plate_numbers : list string) : M (list VehicleInfo) :=
  bulk_check_from [] plate_numbers.

End Methods.

End Client.

Export Client.

(** ** [TNKBClient.__init__]: names, attributes and the order of the
    statements *)

Module Construct.

(** What a name or an attribute is bound to while [__init__] runs. *)
#[warnings="-register-all"]
Inductive obj :=
| Val (v : value)
| Self
| Named (name : string)
| Instance (cls : string) (kwargs : list (string * obj))
| Session (headers : gmap string obj) (mounts : list (string * obj)).

Definition truthy (o : obj) : bool :=
  match o with
  | Val v => Value.truthy v
  | _ => true
  end.

(** The names bound at the top level of [tnkb/client.py] when a method
    runs: its imports, [logger], the class, and the module's own. *)
Definition module_globals : list string :=
  [ "re"; "logging"; "Optional"; "Dict"; "Any"; "List"; "quote";
    "requests"; "HTTPAdapter"; "Retry";
    "TNKBError"; "InvalidPlateError"; "APIError"; "NetworkError";
    "TNKBTimeoutError"; "ValidationError";
    "VehicleInfo"; "REGION_CODES"; "logger"; "TNKBClient";
    "__name__"; "__doc__"; "__package__"; "__loader__"; "__spec__";
    "__file__"; "__cached__"; "__builtins__" ].

Definition builtins : list string :=
  [ "ArithmeticError"; "AssertionError"; "AttributeError"; "BaseException";
    "BaseExceptionGroup"; "BlockingIOError"; "BrokenPipeError";
    "BufferError"; "BytesWarning"; "ChildProcessError";
    "ConnectionAbortedError"; "ConnectionError"; "ConnectionRefusedError";
    "ConnectionResetError"; "DeprecationWarning"; "EOFError"; "Ellipsis";
    "EncodingWarning"; "EnvironmentError"; "Exception"; "ExceptionGroup";
    "False"; "FileExistsError"; "FileNotFoundError"; "FloatingPointError";
    "FutureWarning"; "GeneratorExit"; "IOError"; "ImportError";
    "ImportWarning"; "IndentationError"; "IndexError"; "InterruptedError";
    "IsADirectoryError"; "KeyError"; "KeyboardInterrupt"; "LookupError";
    "MemoryError"; "ModuleNotFoundError"; "NameError"; "None";
    "NotADirectoryError"; "NotImplemented"; "NotImplementedError";
    "OSError"; "OverflowError"; "PendingDeprecationWarning";
    "PermissionError"; "ProcessLookupError"; "RecursionError";
    "ReferenceError"; "ResourceWarning"; "RuntimeError"; "RuntimeWarning";
    "StopAsyncIteration"; "StopIteration"; "SyntaxError"; "SyntaxWarning";
    "SystemError"; "SystemExit"; "TabError"; "TimeoutError"; "True";
    "TypeError"; "UnboundLocalError"; "UnicodeDecodeError";
    "UnicodeEncodeError"; "UnicodeError"; "UnicodeTranslateError";
    "UnicodeWarning"; "UserWarning"; "ValueError"; "Warning";
    "ZeroDivisionError"; "__build_class__"; "__debug__"; "__doc__";
    "__import__"; "__loader__"; "__name__"; "__package__"; "__spec__";
    "abs"; "aiter"; "all"; "anext"; "any"; "ascii"; "bin"; "bool";
    "breakpoint"; "bytearray"; "bytes"; "callable"; "chr"; "classmethod";
    "compile"; "complex"; "copyright"; "credits"; "delattr"; "dict"; "dir";
    "divmod"; "enumerate"; "eval"; "exec"; "exit"; "filter"; "float";
    "format"; "frozenset"; "getattr"; "globals"; "hasattr"; "hash"; "help";
    "hex"; "id"; "input"; "int"; "isinstance"; "issubclass"; "iter"; "len";
    "license"; "list"; "locals"; "map"; "max"; "memoryview"; "min"; "next";
    "object"; "oct"; "open"; "ord"; "pow"; "print"; "property"; "quit";
    "range"; "repr"; "reversed"; "round"; "set"; "setattr"; "slice";
    "sorted"; "staticmethod"; "str"; "sum"; "super"; "tuple"; "type";
    "vars"; "zip" ].

(** The attributes every instance finds on its class: those of the body
    of [class TNKBClient] and those of [object]. *)
Definition class_attributes : list string :=
  [ "API_BASE_URL"; "CHECK_KENDARAAN_ENDPOINT"; "CEK_NOPOL_ENDPOINT";
    "PLATE_PATTERN"; "__init__"; "check_plate"; "validate_plate";
    "get_region_info"; "list_regions"; "bulk_check"; "_normalize_plate";
    "_validate_plate_format"; "_parse_plate"; "_call_api";
    "_build_vehicle_info"; "_parse_locally"; "_create_invalid_vehicle";
    "close"; "__enter__"; "__exit__"; "__qualname__";
    "__class__"; "__delattr__"; "__dict__"; "__dir__"; "__doc__"; "__eq__";
    "__format__"; "__ge__"; "__getattribute__"; "__getstate__"; "__gt__";
    "__hash__"; "__init_subclass__"; "__le__"; "__lt__";
    "__module__"; "__ne__"; "__new__"; "__reduce__"; "__reduce_ex__";
    "__repr__"; "__setattr__"; "__sizeof__"; "__str__"; "__subclasshook__";
    "__weakref__" ].

(** The local names of the running call and the instance's own
    attributes. *)
Record frame := mkFrame
  { locals : gmap string obj;
    attrs : gmap string obj }.

Definition St (A : Type) : Type := frame -> result A * frame.

#[export] Instance St_ret : MRet St := fun A a f => (Ok a, f).
#[export] Instance St_bind : MBind St := fun A B k m f =>
  match m f with
  | (Ok a, f') => k a f'
  | (Raise e, f') => (Raise e, f')
  end.

(** Reading a name: the locals, then the module, then the builtins. *)
Definition load (x : string) : St obj := fun f =>
  match locals f !! x with
  | Some o => (Ok o, f)
  | None =>
      if bool_decide (x ∈ module_globals) || bool_decide (x ∈ builtins)
      then (Ok (Named x), f)
      else (raise NameError ("name '" +:+ x +:+ "' is not defined"), f)
  end.

Definition store (x : string) (o : obj) : St unit := fun f =>
  (Ok tt, mkFrame (<[x := o]> (locals f)) (attrs f)).

(** [self.a]: the instance's attribute, else the class's. *)
Definition getattr_self (a : string) : St obj := fun f =>
  match attrs f !! a with
  | Some o => (Ok o, f)
  | None =>
      if bool_decide (a ∈ class_attributes) then (Ok (Named a), f)
      else
        (raise AttributeError
           ("'TNKBClient' object has no attribute '" +:+ a +:+ "'"), f)
  end.

Definition setattr_self (a : string) (o : obj) : St unit := fun f =>
  (Ok tt, mkFrame (locals f) (<[a := o]> (attrs f))).

(** [self.session.mount(prefix, adapter)] *)
Definition session_mount (prefix : string) (adapter : obj) : St unit :=
  s ← getattr_self "session";
  match s with
  | Session h ms => setattr_self "session" (Session h (ms ++ [(prefix, adapter)]))
  | _ => mret tt
  end.

(** [self.session.headers.update(more)] *)
Definition session_headers_update (more : gmap string obj) : St unit :=
  s ← getattr_self "session";
  match s with
  | Session h ms => setattr_self "session" (Session (more ∪ h) ms)
  | _ => mret tt
  end.

(** Lines 58 to 60. *)
Definition init_attributes : St unit :=
  v ← load "timeout"; setattr_self "timeout" v;;
  v ← load "verify_ssl"; setattr_self "verify_ssl" v;;
  v ← load "api_key"; setattr_self "api_key" v.

(** Lines 62 to 84: the session, its retries and headers, and the key. *)
Definition init_session : St unit :=
  _ ← load "requests"; setattr_self "session" (Session ∅ []);;
  _ ← load "Retry";
  total ← load "max_retries";
  store "retry_strategy"
    (Instance "Retry"
       [ ("total", total);
         ("backoff_factor", Val (VInt 1));
         ("status_forcelist",
          Val (VList [VInt 429; VInt 500; VInt 502; VInt 503; VInt 504]));
         ("allowed_methods", Val (VList [VStr "GET"; VStr "POST"])) ]);;
  _ ← load "HTTPAdapter";
  retry_strategy ← load "retry_strategy";
  store "adapter" (Instance "HTTPAdapter" [("max_retries", retry_strategy)]);;
  adapter ← load "adapter"; session_mount "http://" adapter;;
  adapter ← load "adapter"; session_mount "https://" adapter;;
  session_headers_update
    (<["User-Agent" := Val (VStr "TNKBClient/1.0.0 (Python)")]>
    (<["Content-Type" := Val (VStr "application/json")]>
    (<["X-RapidAPI-Host" := Val (VStr "cek-nopol-kendaraan.p.rapidapi.com")]>
       ∅)));;
  key ← getattr_self "rapidapi_key";
  if truthy key then
    key ← getattr_self "rapidapi_key";
    session_headers_update (<["X-RapidAPI-Key" := key]> ∅)
  else mret tt.

Definition __init__ : St unit := init_attributes;; init_session.

Definition arguments (timeout max_retries verify_ssl rapidapi_key : obj)
  : gmap string obj :=
  <["self" := Self]> (<["timeout" := timeout]>
  (<["max_retries" := max_retries]> (<["verify_ssl" := verify_ssl]>
  (<["rapidapi_key" := rapidapi_key]> ∅)))).

(** [TNKBClient(timeout, max_retries, verify_ssl, rapidapi_key)]: a new
    instance with no attribute of its own, handed to [__init__]; the
    caller gets the instance only if [__init__] returns. *)
Definition TNKBClient_call (timeout max_retries verify_ssl rapidapi_key : obj)
  : result (gmap string obj) :=
  let f := mkFrame (arguments timeout max_retries verify_ssl rapidapi_key) ∅ in
  match __init__ f with
  | (Ok _, f') => Ok (attrs f')
  | (Raise e, _) => Raise e
  end.

End Construct.

(** ** What the pattern means, stated apart from the matcher *)

Module Shape.
Import PyStr Re.

(** [s] cut into one run per piece, each run of the piece's class and
    within its bounds, up to what [$] lets remain; [gs] are the runs of
    the capturing pieces. *)
Inductive splits : list piece -> string -> list string -> Prop :=
| splits_end tail :
    at_end tail = true -> splits [] tail []
| splits_piece p ps g rest gs :
    (rmin p <= String.length g <= rmax p)%nat ->
    all_chars (in_class (cls p)) g = true ->
    splits ps rest gs ->
    splits (p :: ps) (g +:+ rest) (if captured p then g :: gs else gs).

Definition optional_blank (s : string) : Prop := s = "" \/ s = " ".

(** One or two letters, an optional blank, one to four digits, an
    optional blank, one to three letters, and nothing else. *)
Definition plate_shape (s : string) : Prop :=
  exists l1 b1 d b2 l2,
    s = l1 +:+ b1 +:+ d +:+ b2 +:+ l2 /\
    all_chars isAZ l1 = true /\ (1 <= String.length l1 <= 2)%nat /\
    optional_blank b1 /\
    all_chars isdigit d = true /\ (1 <= String.length d <= 4)%nat /\
    optional_blank b2 /\
    all_chars isAZ l2 = true /\ (1 <= String.length l2 <= 3)%nat.

(** Upper-cased, or with no letter at all: [s.upper() == s]. *)
Definition is_upper (s : string) : Prop := upper s = s.

Definition blank_only (s : string) : Prop := all_chars isspace s = true.

(** Upper-casing and collapsing white space to single blanks, the
    expression of line 197 of the client. *)
Definition collapse (s : string) : string := join " " (split (upper s)).


(** What [\s?] leaves of a run of white space after collapsing. *)
Definition squash (b : string) : string := if is_empty b then "" else " ".


(** What the fallback builds for a plate, its parsed region code and
    digits, at the time [t]. *)
Definition local_info (n code digits : string) (t : Z) : VehicleInfo :=
  mkVehicleInfo n (upper code)
    (default "Unknown Region"
       (REGION_CODES !! upper code ≫= (fun info => info !! "name")))
    (VStr "Car") true
    (VDict (<["source" := VStr "local_parsing"]>
           (<["region_code" := VStr (upper code)]>
           (<["digits" := VStr digits]>
           (<["note" := VStr "Parsed locally without API"]> ∅)))))
    t.

(** The placeholder of [bulk_check] for a plate and an error message. *)
Definition placeholder (plate error : string) (t : Z) : VehicleInfo :=
  mkVehicleInfo plate "" "Unknown" (VStr "Unknown") false
    (VDict (<["error" := VStr error]> ∅)) t.

(** How an output of [bulk_check] answers the plate it stands for: the
    result for the normalised plate, or the placeholder that carries the
    message of the [InvalidPlateError]. *)
Definition answers (plate : string) (v : VehicleInfo) : Prop :=
  (exists n, _normalize_plate plate = Ok n /\ plate_number v = n /\
             is_valid v = true /\ is_upper (region_code v)) \/
  (exists msg t, _normalize_plate plate = Raise (Exn InvalidPlateError msg) /\
                 v = placeholder plate msg t).

End Shape.


(** ** Surroundings used in the examples *)

Module Scenarios.

(** The attributes the defaults of [__init__] would give. *)
Definition client : TNKBClient := mkClient 10 true.

Definition start : World := mkWorld 0 0 [].

Definition clock (n : nat) : Z := Z.of_nat n.

(** [str] on the scalars that occur in the examples. *)
Definition str_scalar (v : value) : string :=
  match v with
  | VNone => "None"
  | VBool true => "True"
  | VBool false => "False"
  | VInt n => str_Z n
  | VStr s => s
  | _ => "..."
  end.

Definition ok_response (v : value) : http_outcome :=
  Responds (mkResponse 200 "OK" CHECK_KENDARAAN_ENDPOINT (JsonValue v)).

(** The service cannot be reached: every request times out. *)
Definition unreachable : Env :=
  mkEnv (fun _ _ => Fails ConnectTimeout "connection timed out")
    clock str_scalar.

(** The service answers 200 with the JSON array [[]]. *)
Definition answers_array : Env :=
  mkEnv (fun _ _ => ok_response (VList [])) clock str_scalar.


End Scenarios.

(** ** How a string that the pattern matches is written *)

Module Written.
Import PyStr Re Shape.

(** What [\s?] matches: at most one character of white space. *)
Definition gap (b : string) : Prop :=
  all_chars isspace b = true /\ (String.length b <= 1)%nat.

(** What [$] leaves unmatched: nothing, or one final line feed. *)
Definition line_end (t : string) : Prop := t = "" \/ t = String "010" "".

(** [s] is the region code [a], the digits [d] and the letters [l], with
    at most one white space character between them and at most a line
    feed after them. *)
Definition written_as (s a d l : string) : Prop :=
  exists b1 b2 t,
    s = a +:+ b1 +:+ d +:+ b2 +:+ l +:+ t /\
    all_chars isAZ a = true /\ (1 <= String.length a <= 2)%nat /\
    gap b1 /\
    all_chars isdigit d = true /\ (1 <= String.length d <= 4)%nat /\
    gap b2 /\
    all_chars isAZ l = true /\ (1 <= String.length l <= 3)%nat /\
    line_end t.

(** The string ends where a run of the class [p] has to end. *)
Definition stops (p : ascii -> bool) (r : string) : bool :=
  match r with
  | EmptyString => true
  | String c _ => negb (p c)
  end.

End Written.

(** ** The request of a gateway call and the world after it *)

Module Gateway.

(** The request that [_call_api] hands to the session: a GET when
    [method.upper()] is ["GET"], a POST otherwise. *)
Definition request_of (self : TNKBClient) (endpoint : string)
    (params : gmap string string) (method : string) : request :=
  mkRequest (if String.eqb (PyStr.upper method) "GET" then "GET" else "POST")
    endpoint params (timeout self) (verify_ssl self).

(** One more request has been sent; the clock and the log are as before. *)
Definition sent (w : World) : World :=
  mkWorld (S (requests_sent w)) (clock_reads w) (log w).

(** The clock has been read once more. *)
Definition ticked (w : World) : World :=
  mkWorld (requests_sent w) (S (clock_reads w)) (log w).

(** One more line has been logged. *)
Definition logged (level msg : string) (w : World) : World :=
  mkWorld (requests_sent w) (clock_reads w) (log w ++ [(level, msg)]).

(** A status for which [raise_for_status] raises. *)
Definition error_status (s : Z) : bool := ((400 <=? s) && (s <? 600))%Z.


End Gateway.

(** ** Counting what a bulk check costs *)

Module Accounting.

(** [_normalize_plate] accepts the plate. *)
Definition well_formed (plate : string) : bool :=
  match _normalize_plate plate with
  | Ok _ => true
  | Raise _ => false
  end.

(** The lines of a log at one level. *)
Definition at_level (level : string) (lines : list (string * string))
  : list (string * string) :=
  filter (fun line => line.1 = level) lines.

End Accounting.

(** ** [TNKBClient.list_regions] *)

Module Listing.

(** The order of [sorted] on the items of the table: an item is a pair
    whose first component, the code, decides, by code points. No two items
    share a code, so the second component is never compared. *)
Definition by_code (p q : string * gmap string string) : Prop :=
  String.le p.1 q.1.

#[export] Instance by_code_dec : RelDecision by_code.
Proof. intros p q. unfold by_code. apply _. Defined.

(** [d[key]] on a dict. *)
Definition subscript (d : gmap string string) (key : string) : result string :=
  match d !! key with
  | Some v => Ok v
  | None => raise KeyError ("'" +:+ key +:+ "'")
  end.

(** The dict that the comprehension builds for one item. *)
Definition region_row (item : string * gmap string string)
  : result (gmap string string) :=
  name ← subscript item.2 "name";
  mret (<["code" := item.1]>
       (<["name" := name]>
       (<["province" := default "" (item.2 !! "province")]> ∅))).

(** [list_regions] over a table: the items sorted, one dict for each. On
    items with distinct codes [sorted] gives the one ascending
    arrangement, whatever order the dict hands them out in. *)
Definition list_regions_of (table : gmap string (gmap string string))
  : result (list (gmap string string)) :=
  mapM region_row (merge_sort by_code (map_to_list table)).

Definition list_regions : result (list (gmap string string)) :=
  list_regions_of REGION_CODES.

(** The code of a row of the listing. *)
Definition code_of (row : gmap string string) : string :=
  default "" (row !! "code").

(** Strictly before, in the order of the code points. *)
Definition ascending (a b : string) : Prop := String.le a b /\ a <> b.

End Listing.

(** * Properties *)

(** ** Characters and strings *)

Module PyStrFacts.
Import PyStr Shape.

Ltac each_char c :=
  destruct c as [[] [] [] [] [] [] [] []]; try reflexivity; try discriminate.

Lemma upper_char_idem c : upper_char (upper_char c) = upper_char c.
Proof. each_char c. Qed.


Lemma isspace_upper_char c : isspace (upper_char c) = isspace c.
Proof. each_char c. Qed.

Lemma upper_char_AZ c : isAZ c = true -> upper_char c = c.
Proof. each_char c. Qed.

Lemma upper_char_digit c : isdigit c = true -> upper_char c = c.
Proof. each_char c. Qed.

Lemma upper_char_space c : isspace c = true -> upper_char c = c.
Proof. each_char c. Qed.

Lemma AZ_not_space c : isAZ c = true -> isspace c = false.
Proof. each_char c. Qed.

Lemma digit_not_space c : isdigit c = true -> isspace c = false.
Proof. each_char c. Qed.

Lemma sapp_cons c s t : String c s +:+ t = String c (s +:+ t).
Proof. reflexivity. Qed.

Lemma sapp_nil_l s : "" +:+ s = s.
Proof. reflexivity. Qed.

Lemma sapp_nil_r s : s +:+ "" = s.
Proof. induction s as [|c s IH]; [done|]. by rewrite sapp_cons, IH. Qed.

Lemma sapp_assoc s t u : (s +:+ t) +:+ u = s +:+ (t +:+ u).
Proof.
  induction s as [|c s IH]; [done|]. by rewrite !sapp_cons, IH.
Qed.


Lemma upper_sapp s t : upper (s +:+ t) = upper s +:+ upper t.
Proof.
  induction s as [|c s IH]; [done|].
  rewrite sapp_cons. simpl. by rewrite IH, sapp_cons.
Qed.

Lemma upper_idem s : upper (upper s) = upper s.
Proof.
  induction s as [|c s IH]; [done|]. simpl. by rewrite upper_char_idem, IH.
Qed.



Lemma is_empty_true s : is_empty s = true <-> s = "".
Proof. by destruct s. Qed.

Lemma all_chars_sapp p s t :
  all_chars p (s +:+ t) = all_chars p s && all_chars p t.
Proof.
  induction s as [|c s IH]; [done|].
  rewrite sapp_cons. simpl. by rewrite IH, andb_assoc.
Qed.

Lemma all_chars_impl (p q : ascii -> bool) s :
  (forall c, p c = true -> q c = true) ->
  all_chars p s = true -> all_chars q s = true.
Proof.
  intros Hpq. induction s as [|c s IH]; [done|]. simpl.
  intros [Hc Hs]%andb_prop. rewrite (Hpq c Hc). simpl. auto.
Qed.

Lemma upper_fixed (p : ascii -> bool) s :
  (forall c, p c = true -> upper_char c = c) ->
  all_chars p s = true -> upper s = s.
Proof.
  intros Hp. induction s as [|c s IH]; [done|]. simpl.
  intros [Hc Hs]%andb_prop. by rewrite (Hp c Hc), IH.
Qed.

(** *** [split] *)

Lemma flush_upper w : flush (upper w) = upper <$> flush w.
Proof. by destruct w. Qed.

Lemma split_from_upper w s :
  split_from (upper w) (upper s) = upper <$> split_from w s.
Proof.
  revert w. induction s as [|c s IH]; intros w; simpl.
  - apply flush_upper.
  - rewrite isspace_upper_char. destruct (isspace c).
    + rewrite fmap_app, <- flush_upper. f_equal. apply (IH "").
    + rewrite <- IH. by rewrite upper_sapp.
Qed.

Lemma split_upper s : split (upper s) = upper <$> split s.
Proof. apply (split_from_upper ""). Qed.

Lemma split_from_word w v s :
  all_chars (fun c => negb (isspace c)) v = true ->
  split_from w (v +:+ s) = split_from (w +:+ v) s.
Proof.
  revert w. induction v as [|c v IH]; intros w; simpl.
  - intros _. by rewrite sapp_nil_l, sapp_nil_r.
  - intros [Hc Hv]%andb_prop.
    apply negb_true_iff in Hc. rewrite Hc, IH by done.
    by rewrite sapp_assoc.
Qed.

Lemma split_from_space w c s :
  isspace c = true ->
  split_from w (String c s) = flush w ++ split s.
Proof. intros Hc. simpl. by rewrite Hc. Qed.

Lemma flush_word w : is_word w = true -> flush w = [w].
Proof. unfold is_word, flush. by destruct (is_empty w). Qed.

Lemma is_word_snoc w c :
  all_chars (fun c => negb (isspace c)) w = true ->
  isspace c = false -> is_word (w +:+ String c "") = true.
Proof.
  intros Hw Hc. unfold is_word. rewrite all_chars_sapp, Hw. simpl.
  rewrite Hc. by destruct w.
Qed.

Lemma split_from_words w s :
  all_chars (fun c => negb (isspace c)) w = true ->
  Forall (fun v => is_word v = true) (split_from w s).
Proof.
  revert w. induction s as [|c s IH]; intros w Hw; simpl.
  - unfold flush. destruct (is_empty w) eqn:He; [constructor|].
    constructor; [|constructor]. unfold is_word. by rewrite He, Hw.
  - destruct (isspace c) eqn:Hc.
    + apply Forall_app. split; [|by apply IH].
      unfold flush. destruct (is_empty w) eqn:He; [constructor|].
      constructor; [|constructor]. unfold is_word. by rewrite He, Hw.
    + apply IH. rewrite all_chars_sapp, Hw. simpl. by rewrite Hc.
Qed.

Lemma split_words s : Forall (fun v => is_word v = true) (split s).
Proof. by apply split_from_words. Qed.

(** *** [join] *)

Lemma join_cons sep w v ws :
  join sep (w :: v :: ws) = w +:+ sep +:+ join sep (v :: ws).
Proof. reflexivity. Qed.

Lemma join_upper ws : upper (join " " ws) = join " " (upper <$> ws).
Proof.
  induction ws as [|w ws IH]; [done|].
  destruct ws as [|v ws]; [done|].
  rewrite join_cons, !upper_sapp, IH. reflexivity.
Qed.

Lemma split_join ws :
  Forall (fun v => is_word v = true) ws -> split (join " " ws) = ws.
Proof.
  induction 1 as [|w ws Hw Hws IH]; [done|].
  pose proof Hw as Hw'. unfold is_word in Hw'.
  apply andb_prop in Hw' as [_ Hns].
  destruct ws as [|v ws].
  - pose proof (split_from_word "" w "" Hns) as H.
    rewrite sapp_nil_r, sapp_nil_l in H.
    unfold split. simpl join. rewrite H. by apply flush_word.
  - rewrite join_cons. unfold split.
    rewrite split_from_word by done. rewrite sapp_nil_l.
    change (" " +:+ join " " (v :: ws)) with (String " " (join " " (v :: ws))).
    rewrite split_from_space by done. by rewrite flush_word, IH.
Qed.


Lemma collapse_idem s : collapse (collapse s) = collapse s.
Proof.
  unfold collapse.
  rewrite join_upper, <- split_upper, upper_idem.
  by rewrite split_join by apply split_words.
Qed.



End PyStrFacts.

(** ** The matcher against the meaning of the pattern *)

Module ReFacts.
Import PyStr Re Shape PyStrFacts.

Lemma take_class_sound k n s g rest :
  take_class k n s = Some (g, rest) ->
  s = g +:+ rest /\ String.length g = n /\ all_chars (in_class k) g = true.
Proof.
  revert s g. induction n as [|n IH]; intros s g; simpl.
  - intros [= <- <-]. done.
  - destruct s as [|c s]; [done|].
    destruct (in_class k c) eqn:Hc; [|done].
    destruct (take_class k n s) as [[g' rest']|] eqn:Ht; [|done].
    intros [= <- <-]. destruct (IH _ _ Ht) as (-> & <- & Hg).
    simpl. by rewrite Hc, Hg.
Qed.

Lemma take_class_complete k g rest :
  all_chars (in_class k) g = true ->
  take_class k (String.length g) (g +:+ rest) = Some (g, rest).
Proof.
  induction g as [|c g IH]; [done|]. simpl.
  intros [Hc Hg]%andb_prop. rewrite Hc. by rewrite IH.
Qed.

Lemma greedy_sound {A} (f : nat -> option A) lo k r :
  greedy f lo k = Some r ->
  exists n, (lo <= n <= lo + k)%nat /\ f n = Some r.
Proof.
  induction k as [|k IH]; simpl.
  - destruct (f (lo + 0)%nat) eqn:Hf; [|done].
    intros [= ->]. exists (lo + 0)%nat. split; [lia|done].
  - destruct (f (lo + S k)%nat) eqn:Hf.
    + intros [= ->]. exists (lo + S k)%nat. split; [lia|done].
    + intros (n & Hn & Hfn)%IH. exists n. split; [lia|done].
Qed.

Lemma greedy_complete {A} (f : nat -> option A) lo k n :
  (lo <= n <= lo + k)%nat -> is_Some (f n) -> is_Some (greedy f lo k).
Proof.
  induction k as [|k IH]; simpl; intros Hn Hf.
  - replace (lo + 0)%nat with n by lia. by destruct Hf as [r ->].
  - destruct (f (lo + S k)%nat) eqn:Hk; [done|].
    apply IH; [|done].
    destruct (decide (n = lo + S k)%nat) as [->|]; [|lia].
    rewrite Hk in Hf. by destruct Hf.
Qed.

Lemma match_sound ps s gs : match_pieces ps s = Some gs -> splits ps s gs.
Proof.
  revert s gs. induction ps as [|p ps IH]; intros s gs; simpl.
  - destruct (at_end s) eqn:He; [|done]. intros [= <-]. by constructor.
  - destruct (rmax p <? rmin p)%nat eqn:Hb; [done|].
    apply Nat.ltb_ge in Hb.
    intros (n & Hn & Hf)%greedy_sound.
    destruct (take_class (cls p) n s) as [[g rest]|] eqn:Ht; [|done].
    destruct (match_pieces ps rest) as [gs'|] eqn:Hm; [|done].
    injection Hf as <-.
    destruct (take_class_sound _ _ _ _ _ Ht) as (-> & <- & Hg).
    constructor; [lia|done|by apply IH].
Qed.

Lemma match_complete ps s gs : splits ps s gs -> is_Some (match_pieces ps s).
Proof.
  induction 1 as [tail He|p ps g rest gs Hlen Hg Hs IH]; simpl.
  - by rewrite He.
  - destruct (rmax p <? rmin p)%nat eqn:Hb.
    { apply Nat.ltb_lt in Hb. lia. }
    apply (greedy_complete _ _ _ (String.length g)); [lia|].
    rewrite take_class_complete by done.
    destruct IH as [gs' ->]. done.
Qed.

(** *** The plate pattern *)

Lemma plate_splits s gs :
  splits PLATE_PATTERN s gs ->
  exists l1 b1 d b2 l2 tail,
    s = l1 +:+ b1 +:+ d +:+ b2 +:+ l2 +:+ tail /\ gs = [l1; d; l2] /\
    all_chars isAZ l1 = true /\ (1 <= String.length l1 <= 2)%nat /\
    all_chars isspace b1 = true /\ (String.length b1 <= 1)%nat /\
    all_chars isdigit d = true /\ (1 <= String.length d <= 4)%nat /\
    all_chars isspace b2 = true /\ (String.length b2 <= 1)%nat /\
    all_chars isAZ l2 = true /\ (1 <= String.length l2 <= 3)%nat /\
    at_end tail = true.
Proof.
  unfold PLATE_PATTERN. intros H.
  inversion H as [|p1 ps1 l1 r1 gs1 Hn1 Hc1 H1]; subst; clear H.
  inversion H1 as [|p2 ps2 b1 r2 gs2 Hn2 Hc2 H2]; subst; clear H1.
  inversion H2 as [|p3 ps3 d r3 gs3 Hn3 Hc3 H3]; subst; clear H2.
  inversion H3 as [|p4 ps4 b2 r4 gs4 Hn4 Hc4 H4]; subst; clear H3.
  inversion H4 as [|p5 ps5 l2 r5 gs5 Hn5 Hc5 H5]; subst; clear H4.
  inversion H5 as [tail He|]; subst; clear H5.
  simpl in *. exists l1, b1, d, b2, l2, r5.
  repeat split; try done; lia.
Qed.

Lemma splits_plate l1 b1 d b2 l2 tail :
  all_chars isAZ l1 = true -> (1 <= String.length l1 <= 2)%nat ->
  all_chars isspace b1 = true -> (String.length b1 <= 1)%nat ->
  all_chars isdigit d = true -> (1 <= String.length d <= 4)%nat ->
  all_chars isspace b2 = true -> (String.length b2 <= 1)%nat ->
  all_chars isAZ l2 = true -> (1 <= String.length l2 <= 3)%nat ->
  at_end tail = true ->
  splits PLATE_PATTERN (l1 +:+ b1 +:+ d +:+ b2 +:+ l2 +:+ tail) [l1; d; l2].
Proof.
  intros. unfold PLATE_PATTERN.
  apply (splits_piece (Piece UpperAZ 1 2 true)); [simpl; lia|done|].
  apply (splits_piece (Piece Space 0 1 false)); [simpl; lia|done|].
  apply (splits_piece (Piece Digit 1 4 true)); [simpl; lia|done|].
  apply (splits_piece (Piece Space 0 1 false)); [simpl; lia|done|].
  apply (splits_piece (Piece UpperAZ 1 3 true)); [simpl; lia|done|].
  by constructor.
Qed.

Lemma at_end_cases tail :
  at_end tail = true -> tail = "" \/ tail = String "010" "".
Proof.
  destruct tail as [|c [|c' t]]; simpl; [by left| |done].
  intros Hc. right. f_equal. revert Hc. each_char c.
Qed.

Lemma short_space_cases b :
  all_chars isspace b = true -> (String.length b <= 1)%nat ->
  b = "" \/ exists c, b = String c "" /\ isspace c = true.
Proof.
  destruct b as [|c [|c' b]]; simpl; [by left| |lia].
  rewrite andb_true_r. intros Hc _. right. by exists c.
Qed.



Lemma blank_space b : optional_blank b -> all_chars isspace b = true.
Proof. by intros [-> | ->]. Qed.

Lemma blank_length b : optional_blank b -> (String.length b <= 1)%nat.
Proof. intros [-> | ->]; simpl; lia. Qed.


Lemma shape_matches s : plate_shape s -> is_Some (match_pieces PLATE_PATTERN s).
Proof.
  intros (l1 & b1 & d & b2 & l2 & -> & ? & ? & Hb1 & ? & ? & Hb2 & ? & ?).
  apply (match_complete _ _ [l1; d; l2]).
  replace (l1 +:+ b1 +:+ d +:+ b2 +:+ l2)
    with (l1 +:+ b1 +:+ d +:+ b2 +:+ l2 +:+ "") by (by rewrite sapp_nil_r).
  apply splits_plate; auto using blank_space, blank_length.
Qed.


Lemma match_nonempty s gs :
  match_pieces PLATE_PATTERN s = Some gs -> s <> "".
Proof. intros Hm ->. by vm_compute in Hm. Qed.

End ReFacts.

(** ** Normalising, validating and parsing a plate *)

Module PlateFacts.
Import PyStr Re Shape PyStrFacts ReFacts.

#[local] Arguments match_pieces : simpl never.

Lemma normalize_unfold raw :
  _normalize_plate raw =
    if is_empty raw then raise InvalidPlateError "Plate number cannot be empty"
    else match match_pieces PLATE_PATTERN (collapse raw) with
         | Some _ => Ok (collapse raw)
         | None =>
             raise InvalidPlateError
               ("Invalid plate format: " +:+ collapse raw +:+ ". " +:+
                "Expected format: '[A-Z] [1-4 DIGITS] [A-Z]' (e.g., 'B 1234 ABC')")
         end.
Proof.
  unfold _normalize_plate, _validate_plate_format, collapse.
  destruct (is_empty raw); [done|].
  by destruct (match_pieces _ _).
Qed.

Lemma normalize_ok raw n :
  _normalize_plate raw = Ok n <->
  raw <> "" /\ n = collapse raw /\ is_Some (match_pieces PLATE_PATTERN n).
Proof.
  rewrite normalize_unfold. destruct (is_empty raw) eqn:He.
  - apply is_empty_true in He as ->. split; [done|]. by intros [? _].
  - assert (raw <> "") by (by intros ->).
    destruct (match_pieces PLATE_PATTERN (collapse raw)) eqn:Hm.
    + split.
      * intros [= <-]. rewrite Hm. eauto.
      * by intros (_ & -> & _).
    + split; [done|]. intros (_ & -> & [gs Hgs]). congruence.
Qed.

Lemma normalize_total raw :
  _normalize_plate raw = Ok (collapse raw) \/
  raises (_normalize_plate raw) InvalidPlateError.
Proof.
  rewrite normalize_unfold. destruct (is_empty raw).
  - right. by eexists.
  - destruct (match_pieces _ _); [by left|right; by eexists].
Qed.

Lemma parse_ok n :
  is_Some (match_pieces PLATE_PATTERN n) ->
  exists l1 d l2,
    match_pieces PLATE_PATTERN n = Some [l1; d; l2] /\
    _parse_plate n = Ok (l1, d, l2) /\
    all_chars isAZ l1 = true /\ (1 <= String.length l1 <= 2)%nat /\
    all_chars isdigit d = true /\ (1 <= String.length d <= 4)%nat /\
    all_chars isAZ l2 = true /\ (1 <= String.length l2 <= 3)%nat.
Proof.
  intros [gs Hm]. pose proof Hm as Hs.
  apply match_sound, plate_splits in Hs
    as (l1 & b1 & d & b2 & l2 & tail & _ & -> & ? & ? & _ & _ & ? & ? &
        _ & _ & ? & ? & _).
  exists l1, d, l2. unfold _parse_plate. rewrite Hm. done.
Qed.

Lemma normalize_then_parse raw n :
  _normalize_plate raw = Ok n -> exists g, _parse_plate n = Ok g.
Proof.
  intros (_ & _ & Hm)%normalize_ok.
  destruct (parse_ok n Hm) as (l1 & d & l2 & _ & Hp & _). eauto.
Qed.

(** *** A string that matches as it stands also matches once collapsed *)

Lemma squash_blank b : optional_blank (squash b).
Proof. unfold squash. destruct (is_empty b); [by left|by right]. Qed.

Lemma word_of (p : ascii -> bool) w :
  (forall c, p c = true -> isspace c = false) ->
  all_chars p w = true -> all_chars (fun c => negb (isspace c)) w = true.
Proof.
  intros Hp. apply all_chars_impl. intros c Hc. by rewrite (Hp c Hc).
Qed.

Lemma nonempty_length w : (1 <= String.length w)%nat -> is_empty w = false.
Proof. destruct w; simpl; [lia|done]. Qed.

Lemma split_from_gap w b s :
  is_word w = true ->
  all_chars isspace b = true -> (String.length b <= 1)%nat ->
  split_from w (b +:+ s) =
    if is_empty b then split_from w s else w :: split s.
Proof.
  intros Hw Hb Hl. destruct (short_space_cases b Hb Hl) as [->|(c & -> & Hc)].
  - done.
  - change (String c "" +:+ s) with (String c s).
    rewrite split_from_space by done. by rewrite flush_word.
Qed.

Lemma split_from_tail w tail :
  is_word w = true -> at_end tail = true -> split_from w tail = [w].
Proof.
  intros Hw [-> | ->]%at_end_cases; simpl; rewrite flush_word by done; done.
Qed.

Lemma is_word_sapp v w :
  is_word v = true -> all_chars (fun c => negb (isspace c)) w = true ->
  is_word (v +:+ w) = true.
Proof.
  unfold is_word. intros [Hv1 Hv2]%andb_prop Hw.
  rewrite all_chars_sapp, Hv2, Hw. by destruct v.
Qed.

Lemma is_word_of w :
  (1 <= String.length w)%nat ->
  all_chars (fun c => negb (isspace c)) w = true -> is_word w = true.
Proof. intros Hl Hw. unfold is_word. by rewrite nonempty_length, Hw. Qed.

Lemma collapse_parts l1 b1 d b2 l2 tail :
  all_chars isAZ l1 = true -> (1 <= String.length l1)%nat ->
  all_chars isspace b1 = true -> (String.length b1 <= 1)%nat ->
  all_chars isdigit d = true -> (1 <= String.length d)%nat ->
  all_chars isspace b2 = true -> (String.length b2 <= 1)%nat ->
  all_chars isAZ l2 = true -> (1 <= String.length l2)%nat ->
  at_end tail = true ->
  collapse (l1 +:+ b1 +:+ d +:+ b2 +:+ l2 +:+ tail) =
    l1 +:+ squash b1 +:+ d +:+ squash b2 +:+ l2.
Proof.
  intros Hl1 Hn1 Hb1 Hm1 Hd Hn Hb2 Hm2 Hl2 Hn2 He.
  assert (Hw1 := word_of _ _ AZ_not_space Hl1).
  assert (Hwd := word_of _ _ digit_not_space Hd).
  assert (Hw2 := word_of _ _ AZ_not_space Hl2).
  assert (Htail : all_chars isspace tail = true).
  { by destruct (at_end_cases tail He) as [-> | ->]. }
  assert (Hup : upper (l1 +:+ b1 +:+ d +:+ b2 +:+ l2 +:+ tail)
                = l1 +:+ b1 +:+ d +:+ b2 +:+ l2 +:+ tail).
  { rewrite !upper_sapp.
    rewrite (upper_fixed _ l1 upper_char_AZ Hl1).
    rewrite (upper_fixed _ l2 upper_char_AZ Hl2).
    rewrite (upper_fixed _ d upper_char_digit Hd).
    rewrite (upper_fixed _ b1 upper_char_space Hb1).
    rewrite (upper_fixed _ b2 upper_char_space Hb2).
    by rewrite (upper_fixed _ tail upper_char_space Htail). }
  unfold collapse. rewrite Hup. unfold split, squash.
  rewrite split_from_word, sapp_nil_l by done.
  rewrite split_from_gap by (by auto using is_word_of).
  destruct (is_empty b1); unfold split.
  - rewrite split_from_word by done.
    rewrite split_from_gap by (by auto using is_word_of, is_word_sapp).
    destruct (is_empty b2); unfold split.
    + rewrite split_from_word by done.
      rewrite split_from_tail
        by (by auto using is_word_of, is_word_sapp).
      simpl. by rewrite ?sapp_assoc.
    + rewrite split_from_word, sapp_nil_l by done.
      rewrite split_from_tail by (by auto using is_word_of).
      simpl. by rewrite ?sapp_assoc.
  - rewrite split_from_word, sapp_nil_l by done.
    rewrite split_from_gap by (by auto using is_word_of).
    destruct (is_empty b2); unfold split.
    + rewrite split_from_word by done.
      rewrite split_from_tail
        by (by auto using is_word_of, is_word_sapp).
      simpl. by rewrite ?sapp_assoc.
    + rewrite split_from_word, sapp_nil_l by done.
      rewrite split_from_tail by (by auto using is_word_of).
      simpl. by rewrite ?sapp_assoc.
Qed.

Lemma match_then_normalize raw :
  is_Some (match_pieces PLATE_PATTERN raw) ->
  exists n, _normalize_plate raw = Ok n.
Proof.
  intros [gs Hm]. pose proof (match_nonempty _ _ Hm) as Hne.
  apply match_sound, plate_splits in Hm
    as (l1 & b1 & d & b2 & l2 & tail & -> & _ & ? & ? & ? & ? & ? & ? &
        ? & ? & ? & ? & He).
  eexists. apply normalize_ok. split; [done|]. split; [done|].
  rewrite collapse_parts by (done || lia).
  apply shape_matches.
  exists l1, (squash b1), d, (squash b2), l2.
  repeat split; try done; try lia; apply squash_blank.
Qed.

End PlateFacts.

(** ** The gateway and the orchestration around it *)

Module ClientFacts.
Import PyStr Re Shape PyStrFacts ReFacts PlateFacts.

#[local] Arguments match_pieces : simpl never.
#[local] Opaque REGION_CODES.

Ltac api_cases resp :=
  unfold raise_for_status, json;
  destruct ((400 <=? status_code resp) && (status_code resp <? 500))%Z;
  [|destruct ((500 <=? status_code resp) && (status_code resp <? 600))%Z;
    [|destruct (body resp) as [[| | | | | |d]|[] ?];
      [..|cbn; destruct (negb (Value.truthy (default VNone (d !! "success"))))
         | | ]]].

Section WithClient.

Variable env : Env.
Variable self : TNKBClient.

Lemma call_api_raises endpoint params method w e w' :
  _call_api env self endpoint params method w = (Raise e, w') ->
  isinstance e APIError = true \/ exn_cls e = AttributeError.
Proof.
  unfold _call_api, try_except, mbind, M_bind, session_request, lift, mraise.
  destruct (String.eqb _ _);
    (destruct (send env _ _) as [r msg|resp];
     [destruct r; cbn; intros [= <- <-]; by left|]);
    api_cases resp; cbn; intros [= <- <-]; (by left) || (by right).
Qed.

Lemma call_api_world endpoint params method w r w' :
  _call_api env self endpoint params method w = (r, w') ->
  requests_sent w' = S (requests_sent w) /\
  clock_reads w' = clock_reads w /\ log w' = log w.
Proof.
  unfold _call_api, try_except, mbind, M_bind, session_request, lift, mraise.
  destruct (String.eqb _ _);
    (destruct (send env _ _) as [rq msg|resp];
     [destruct rq; cbn; by intros [= <- <-]|]);
    api_cases resp; cbn; by intros [= <- <-].
Qed.

(** The record that [VehicleInfo(...)] builds, and the clock read. *)
Lemma VehicleInfo_new_run plate code name vtype valid dets w :
  VehicleInfo_new env plate code name vtype valid dets w =
    (Ok (mkVehicleInfo plate code name vtype valid dets
           (now env (clock_reads w))),
     mkWorld (requests_sent w) (S (clock_reads w)) (log w)).
Proof. reflexivity. Qed.

Lemma build_vehicle_info_run payload n w :
  _build_vehicle_info env payload n w =
    match payload with
    | VDict d =>
        match Value.upper (default (VStr "") (d !! "region_code")) with
        | Ok code =>
            VehicleInfo_new env n code
              (default "Unknown"
                 (default ∅ (REGION_CODES !! code) !! "name"))
              (default (VStr "Unknown") (d !! "vehicle_type"))
              true payload w
        | Raise e => (Raise e, w)
        end
    | _ => (Value.no_attribute payload "get", w)
    end.
Proof.
  unfold _build_vehicle_info, mbind, M_bind, lift.
  destruct payload as [| | | | | |d]; reflexivity.
Qed.

Lemma build_vehicle_info_ok payload n w v w' :
  _build_vehicle_info env payload n w = (Ok v, w') ->
  plate_number v = n /\ is_valid v = true /\ details v = payload /\
  is_upper (region_code v) /\
  (Value.get payload "region_code" (VStr "") ≫= Value.upper)
    = Ok (region_code v).
Proof.
  rewrite build_vehicle_info_run.
  destruct payload as [| | | | | |d]; try done.
  destruct (default (VStr "") (d !! "region_code")) eqn:Hc; try done.
  cbn. rewrite VehicleInfo_new_run. intros [= <- <-]. cbn.
  rewrite Hc. repeat split. apply upper_idem.
Qed.

Lemma build_vehicle_info_raises payload n w e w' :
  _build_vehicle_info env payload n w = (Raise e, w') ->
  exn_cls e = AttributeError.
Proof.
  rewrite build_vehicle_info_run.
  destruct payload as [| | | | | |d]; try (by intros [= <- <-]).
  destruct (default (VStr "") (d !! "region_code"));
    cbn; by intros [= <- <-].
Qed.

Lemma parse_locally_run n code digits w :
  _parse_locally env n code digits w =
    (Ok (local_info n code digits (now env (clock_reads w))),
     mkWorld (requests_sent w) (S (clock_reads w)) (log w)).
Proof.
  unfold _parse_locally, local_info. rewrite VehicleInfo_new_run.
  by destruct (REGION_CODES !! upper code).
Qed.

Lemma check_plate_run raw w :
  check_plate env self raw w =
    match _normalize_plate raw with
    | Raise e => (Raise e, w)
    | Ok n =>
        match _parse_plate n with
        | Raise e => (Raise e, w)
        | Ok (code, digits, _) =>
            match _call_api env self CHECK_KENDARAAN_ENDPOINT
                    (<["nopol" := n]> ∅) "GET" w with
            | (Ok payload, w1) => _build_vehicle_info env payload n w1
            | (Raise e, w1) =>
                if isinstance e APIError then
                  _parse_locally env n code digits
                    (mkWorld (requests_sent w1) (clock_reads w1)
                       (log w1 ++
                          [("WARNING",
                            "API call failed: " +:+ exn_msg e +:+
                            ", falling back to local parsing")]))
                else (Raise e, w1)
            end
        end
    end.
Proof.
  unfold check_plate, mbind, M_bind, lift.
  destruct (_normalize_plate raw) as [n|e]; [|done].
  destruct (_parse_plate n) as [[[code digits] letters]|e]; [|done].
  unfold try_except, mbind, M_bind.
  destruct (_call_api _ _ _ _ _ w) as [[payload|e] w1].
  - destruct (_build_vehicle_info env payload n w1) as [[v|e] w2] eqn:Hb;
      [done|].
    apply build_vehicle_info_raises in Hb.
    destruct e as [c msg]. simpl in Hb. by subst c.
  - cbn. unfold isinstance. by destruct (issubclass (exn_cls e) APIError).
Qed.

End WithClient.
End ClientFacts.

(** ** What [check_plate] and [bulk_check] return and raise *)

Module OrchestratorFacts.
Import PyStr Re Shape PyStrFacts ReFacts PlateFacts ClientFacts.

#[local] Arguments match_pieces : simpl never.
#[local] Opaque REGION_CODES.

Lemma normalize_raise raw e :
  _normalize_plate raw = Raise e -> exn_cls e = InvalidPlateError.
Proof.
  destruct (normalize_total raw) as [H|[msg H]]; rewrite H; [done|].
  by intros [= <-].
Qed.


Lemma AZ_upper code : all_chars isAZ code = true -> upper code = code.
Proof. apply upper_fixed, upper_char_AZ. Qed.

Section WithClient.

Variable env : Env.
Variable self : TNKBClient.

Lemma check_plate_invalid raw w e :
  _normalize_plate raw = Raise e ->
  check_plate env self raw w = (Raise e, w).
Proof. intros H. by rewrite check_plate_run, H. Qed.

Lemma check_plate_fallback raw n w e w1 :
  _normalize_plate raw = Ok n ->
  _call_api env self CHECK_KENDARAAN_ENDPOINT (<["nopol" := n]> ∅) "GET" w
    = (Raise e, w1) ->
  isinstance e APIError = true ->
  exists code digits letters,
    _parse_plate n = Ok (code, digits, letters) /\
    upper code = code /\
    check_plate env self raw w =
      (Ok (local_info n code digits (now env (clock_reads w1))),
       mkWorld (requests_sent w1) (S (clock_reads w1))
         (log w1 ++
            [("WARNING",
              "API call failed: " +:+ exn_msg e +:+
              ", falling back to local parsing")])).
Proof.
  intros Hn Hc He. pose proof Hn as (_ & _ & Hm)%normalize_ok.
  destruct (parse_ok n Hm) as (l1 & d & l2 & _ & Hp & Hl1 & _).
  exists l1, d, l2. split; [done|]. split; [by apply AZ_upper|].
  by rewrite check_plate_run, Hn, Hp, Hc, He, parse_locally_run.
Qed.

Lemma check_plate_raises raw w e w' :
  check_plate env self raw w = (Raise e, w') ->
  (_normalize_plate raw = Raise e /\ exn_cls e = InvalidPlateError) \/
  (succeeds (_normalize_plate raw) /\ exn_cls e = AttributeError).
Proof.
  rewrite check_plate_run.
  destruct (_normalize_plate raw) as [n|e0] eqn:Hn.
  - destruct (normalize_then_parse raw n Hn) as [[[code digits] letters] ->].
    intros H. right. split; [by exists n|]. revert H.
    destruct (_call_api _ _ _ _ _ w) as [[payload|e1] w1] eqn:Hc.
    + apply build_vehicle_info_raises.
    + destruct (isinstance e1 APIError) eqn:Hi.
      * by rewrite parse_locally_run.
      * intros [= <- <-].
        destruct (call_api_raises _ _ _ _ _ _ _ _ Hc); congruence.
  - intros [= <- <-]. left. split; [done|]. by apply normalize_raise in Hn.
Qed.

Lemma check_plate_ok raw w v w' :
  check_plate env self raw w = (Ok v, w') ->
  exists n code digits letters,
    _normalize_plate raw = Ok n /\
    _parse_plate n = Ok (code, digits, letters) /\
    plate_number v = n /\ is_valid v = true /\
    is_upper (region_code v) /\
    ((exists payload w1,
        _call_api env self CHECK_KENDARAAN_ENDPOINT
          (<["nopol" := n]> ∅) "GET" w = (Ok payload, w1) /\
        details v = payload /\
        (Value.get payload "region_code" (VStr "") ≫= Value.upper)
          = Ok (region_code v)) \/
     (exists e w1 t,
        _call_api env self CHECK_KENDARAAN_ENDPOINT
          (<["nopol" := n]> ∅) "GET" w = (Raise e, w1) /\
        isinstance e APIError = true /\
        upper code = code /\
        v = local_info n code digits t)).
Proof.
  rewrite check_plate_run.
  destruct (_normalize_plate raw) as [n|e0] eqn:Hn; [|done].
  pose proof Hn as (_ & _ & Hm)%normalize_ok.
  destruct (parse_ok n Hm) as (l1 & d & l2 & _ & Hp & Hl1 & _).
  rewrite Hp. intros H. exists n, l1, d, l2. split; [done|]. split; [done|].
  revert H. destruct (_call_api _ _ _ _ _ w) as [[payload|e1] w1] eqn:Hc.
  - intros (? & ? & ? & ? & ?)%build_vehicle_info_ok.
    repeat split; try done. left. by exists payload, w1.
  - destruct (isinstance e1 APIError) eqn:Hi; [|done].
    rewrite parse_locally_run. intros [= <- <-].
    repeat split; try done.
    + apply upper_idem.
    + right. exists e1, w1, (now env (clock_reads w1)).
      repeat split; try done. by apply AZ_upper.
Qed.

(** *** The loop of [bulk_check] *)

Lemma bulk_check_from_cons acc plate rest w :
  bulk_check_from env self acc (plate :: rest) w =
    match check_plate env self plate w with
    | (Ok v, w1) => bulk_check_from env self (acc ++ [v]) rest w1
    | (Raise e, w1) =>
        if isinstance e TNKBError then
          bulk_check_from env self
            (acc ++ [placeholder plate (exn_msg e) (now env (clock_reads w1))])
            rest
            (mkWorld (requests_sent w1) (S (clock_reads w1))
               (log w1 ++
                  [("ERROR",
                    "Failed to check plate " +:+ plate +:+ ": " +:+
                    exn_msg e)]))
        else (Raise e, w1)
    end.
Proof.
  cbn [bulk_check_from]. unfold mbind at 1. unfold M_bind at 1.
  unfold try_except at 1. unfold mbind at 1. unfold M_bind at 1.
  destruct (check_plate env self plate w) as [[v|e] w1]; [done|].
  cbn. unfold isinstance. by destruct (issubclass (exn_cls e) TNKBError).
Qed.

Lemma bulk_check_from_ok plates : forall acc w vs w',
  bulk_check_from env self acc plates w = (Ok vs, w') ->
  exists out, vs = acc ++ out /\ Forall2 answers plates out.
Proof.
  induction plates as [|plate rest IH]; intros acc w vs w'.
  - intros [= <- <-]. exists []. by rewrite app_nil_r.
  - rewrite bulk_check_from_cons.
    destruct (check_plate env self plate w) as [[v|e] w1] eqn:Hc.
    + intros (out & -> & Hout)%IH. exists (v :: out).
      split; [by rewrite <- List.app_assoc|]. constructor; [|done].
      apply check_plate_ok in Hc
        as (n & ? & ? & ? & ? & ? & ? & ? & ? & _).
      left. by exists n.
    + destruct (isinstance e TNKBError) eqn:Hi; [|done].
      intros (out & -> & Hout)%IH. eexists (_ :: out).
      split; [by rewrite <- List.app_assoc|]. constructor; [|done].
      right. apply check_plate_raises in Hc as [[Hn He]|[_ He]].
      * destruct e as [c msg]. simpl in He. subst c.
        by exists msg, (now env (clock_reads w1)).
      * destruct e as [c msg]. simpl in He. by subst c.
Qed.

End WithClient.
End OrchestratorFacts.

(** ** Constructing a client *)

Module ConstructFacts.
Import Construct.

(** C1. Whatever the four arguments are, [TNKBClient(...)] raises
    [NameError]: line 60 reads the name [api_key], which is bound neither
    in the call, nor in the module, nor among the builtins, so no instance
    is returned. Moreover the rest of [__init__] (lines 62 to 84), run on
    an instance that had got its three attributes, raises
    [AttributeError] at the read of [self.rapidapi_key], which nothing
    assigns. *)
Theorem construction_raises_NameError
    (timeout max_retries verify_ssl rapidapi_key : obj) :
  TNKBClient_call timeout max_retries verify_ssl rapidapi_key
    = Raise (Exn NameError "name 'api_key' is not defined") /\
  forall key : obj,
    fst (init_session
           (mkFrame (arguments timeout max_retries verify_ssl rapidapi_key)
              (<["api_key" := key]> (<["verify_ssl" := verify_ssl]>
                 (<["timeout" := timeout]> ∅)))))
    = Raise (Exn AttributeError
               "'TNKBClient' object has no attribute 'rapidapi_key'").
Proof.
  split; [|intros key]; vm_compute; reflexivity.
Qed.

End ConstructFacts.

(** ** The characters of an accepted input *)

Module CharFacts.
Import PyStr Re Shape PyStrFacts ReFacts PlateFacts.

#[local] Arguments match_pieces : simpl never.




Lemma all_chars_upper (q : ascii -> bool) s :
  all_chars q (upper s) = all_chars (fun c => q (upper_char c)) s.
Proof. induction s as [|c s IH]; [done|]. simpl. by rewrite IH. Qed.





End CharFacts.

(** ** The plate format validator and the region registry *)

Module Validator.
Import PyStr Re Shape PyStrFacts ReFacts PlateFacts OrchestratorFacts CharFacts.

#[local] Arguments match_pieces : simpl never.

Lemma validate_plate_run raw :
  validate_plate raw =
    Ok (bool_decide (is_Some (match_pieces PLATE_PATTERN raw))).
Proof.
  unfold validate_plate, _validate_plate_format.
  by destruct (match_pieces PLATE_PATTERN raw).
Qed.


Lemma get_region_info_run code :
  get_region_info code = Ok (REGION_CODES !! upper code).
Proof.
  unfold get_region_info. case_bool_decide as Hin.
  - apply elem_of_dom in Hin as [info Hinfo]. by rewrite Hinfo.
  - apply not_elem_of_dom in Hin. by rewrite Hin.
Qed.


(** C9. Normalisation is idempotent: on its own output
    [_normalize_plate] succeeds and returns it unchanged. *)
Theorem normalize_idempotent (x n : string) :
  _normalize_plate x = Ok n -> _normalize_plate n = Ok n.
Proof.
  intros (_ & -> & Hm)%normalize_ok. apply normalize_ok.
  rewrite collapse_idem. split; [|done].
  destruct Hm as [gs Hgs]. by apply match_nonempty in Hgs.
Qed.

Lemma normalize_idempotent_witness :
  _normalize_plate "  b 1234   abc " = Ok "B 1234 ABC" /\
  _normalize_plate "B 1234 ABC" = Ok "B 1234 ABC".
Proof.
  split; [vm_compute; reflexivity|].
  apply (normalize_idempotent "  b 1234   abc "). vm_compute. reflexivity.
Defined.

(** C3, as the code has it. [validate_plate] never raises and answers
    whether the string as given, neither upper-cased nor collapsed,
    passes [_validate_plate_format]. When it answers [True], normalising
    and parsing the string succeed as well; the converse fails. *)
Theorem validate_plate_tests_raw_string (raw : string) :
  (exists b, validate_plate raw = Ok b) /\
  (validate_plate raw = Ok true <-> _validate_plate_format raw = Ok tt) /\
  (validate_plate raw = Ok false <->
     raises (_validate_plate_format raw) InvalidPlateError) /\
  (validate_plate raw = Ok true ->
     exists n g, _normalize_plate raw = Ok n /\ _parse_plate n = Ok g).
Proof.
  rewrite validate_plate_run. unfold _validate_plate_format.
  split; [by eexists|].
  destruct (match_pieces PLATE_PATTERN raw) as [gs|] eqn:Hm.
  - rewrite bool_decide_eq_true_2 by done.
    split; [done|]. split; [by split; [|intros [msg ?]]|].
    intros _. destruct (match_then_normalize raw) as [n Hn]; [by eexists|].
    destruct (normalize_then_parse raw n Hn) as [g Hg]. by exists n, g.
  - rewrite bool_decide_eq_false_2 by (by intros [? ?]).
    split; [done|]. split; [|done]. split; [|done]. intros _. by eexists.
Qed.

Lemma validate_plate_tests_raw_string_witness :
  validate_plate "B 1234 ABC" = Ok true /\
  exists n g, _normalize_plate "B 1234 ABC" = Ok n /\ _parse_plate n = Ok g.
Proof.
  split; [vm_compute; reflexivity|].
  apply (proj2 (proj2 (proj2 (validate_plate_tests_raw_string "B 1234 ABC")))).
  vm_compute. reflexivity.
Defined.

(** C3 as stated fails: ["b1234abc"] normalises and parses, and
    [validate_plate] answers [False] for it. *)
Lemma validate_plate_rejects_lower_case :
  ~ (validate_plate "b1234abc" = Ok true <->
     exists n g, _normalize_plate "b1234abc" = Ok n /\ _parse_plate n = Ok g).
Proof.
  intros [_ H].
  assert (Hv : validate_plate "b1234abc" = Ok true).
  { apply H. exists "B1234ABC", ("B", "1234", "ABC").
    split; vm_compute; reflexivity. }
  vm_compute in Hv. discriminate Hv.
Qed.



End Validator.

(** ** The lookup orchestrator *)

Module Orchestrator.
Import PyStr Re Shape PyStrFacts ReFacts PlateFacts ClientFacts.
Import OrchestratorFacts CharFacts Scenarios.

#[local] Arguments match_pieces : simpl never.
#[local] Opaque REGION_CODES.


Lemma bulk_check_ok env self plates w vs w' :
  bulk_check env self plates w = (Ok vs, w') ->
  length vs = length plates /\ Forall2 answers plates vs.
Proof.
  unfold bulk_check. intros (out & -> & Hout)%bulk_check_from_ok.
  change ([] ++ out) with out.
  split; [|exact Hout]. symmetry. exact (Forall2_length _ _ _ Hout).
Qed.

(** C5. When the gateway call for a well-formed plate raises [APIError]
    or one of its subclasses, [check_plate] returns a [VehicleInfo]: valid,
    for the normalised plate, with the region code that [_parse_plate]
    finds, the region name the registry has for it (else "Unknown
    Region"), the vehicle type "Car", and the four details of local
    parsing. *)
Theorem fallback_on_api_error env self (raw n : string) w e w1 :
  _normalize_plate raw = Ok n ->
  _call_api env self CHECK_KENDARAAN_ENDPOINT (<["nopol" := n]> ∅) "GET" w
    = (Raise e, w1) ->
  isinstance e APIError = true ->
  exists code digits letters v w',
    _parse_plate n = Ok (code, digits, letters) /\
    check_plate env self raw w = (Ok v, w') /\
    is_valid v = true /\
    plate_number v = n /\
    region_code v = code /\
    region_name v =
      default "Unknown Region"
        (REGION_CODES !! code ≫= (fun info => info !! "name")) /\
    vehicle_type v = VStr "Car" /\
    details v =
      VDict (<["source" := VStr "local_parsing"]>
            (<["region_code" := VStr code]>
            (<["digits" := VStr digits]>
            (<["note" := VStr "Parsed locally without API"]> ∅)))).
Proof.
  intros Hn Hc He.
  destruct (check_plate_fallback env self raw n w e w1 Hn Hc He)
    as (code & digits & letters & Hp & Hu & Hr).
  exists code, digits, letters. eexists _, _.
  split; [done|]. split; [exact Hr|].
  unfold local_info. simpl. by rewrite Hu.
Qed.

Lemma fallback_on_api_error_witness :
  exists v w',
    check_plate unreachable client "B 1234 ABC" start = (Ok v, w') /\
    is_valid v = true /\ plate_number v = "B 1234 ABC" /\
    region_name v = "Jawa Barat" /\ vehicle_type v = VStr "Car".
Proof.
  destruct (fallback_on_api_error unreachable client
              "B 1234 ABC" "B 1234 ABC" start
              (Exn TimeoutError "API request timeout after 10s")
              (mkWorld 1 0 [])
              ltac:(vm_compute; reflexivity)
              ltac:(vm_compute; reflexivity)
              ltac:(vm_compute; reflexivity))
    as (code & digits & letters & v & w' & Hp & Hc & Hv & Hn & _ & Hr & Ht & _).
  exists v, w'. vm_compute in Hp. injection Hp as <- <- <-.
  repeat split; assumption.
Defined.







(** C2 at the failing input: the service answers 200 with a JSON array,
    and [check_plate "B 1234 ABC"] raises [AttributeError]. *)
Theorem check_plate_surfaces_AttributeError :
  check_plate answers_array client "B 1234 ABC" start =
    (Raise (Exn AttributeError "'list' object has no attribute 'get'"),
     mkWorld 1 0 []).
Proof. vm_compute. reflexivity. Qed.

(** C7 at the failing input: with the same answer of the service,
    [bulk_check] of one well-formed plate raises [AttributeError] and
    returns no list. *)
Theorem bulk_check_raises_AttributeError :
  bulk_check answers_array client ["B 1234 ABC"] start =
    (Raise (Exn AttributeError "'list' object has no attribute 'get'"),
     mkWorld 1 0 []).
Proof. vm_compute. reflexivity. Qed.

End Orchestrator.

(** ** Which errors leave the orchestrator *)

Module Isolation.
Import PyStr Re Shape PyStrFacts ReFacts PlateFacts ClientFacts.
Import OrchestratorFacts CharFacts Scenarios Orchestrator.

#[local] Arguments match_pieces : simpl never.
#[local] Opaque REGION_CODES.

(** A request that fails in transport makes [_call_api] raise an error of
    the [APIError] family. *)
Lemma call_api_transport_failure env self endpoint params method w :
  (forall rq, exists r msg, send env (requests_sent w) rq = Fails r msg) ->
  exists e w1,
    _call_api env self endpoint params method w = (Raise e, w1) /\
    isinstance e APIError = true.
Proof.
  intros Hs.
  unfold _call_api, try_except, mbind, M_bind, session_request, lift, mraise.
  destruct (String.eqb _ _);
    match goal with
    | |- context [send env (requests_sent w) ?rq] =>
        destruct (Hs rq) as (r & msg & ->)
    end;
    destruct r; cbn; eexists _, _; (split; reflexivity).
Qed.

(** An error that [check_plate] raises is the [InvalidPlateError] of the
    normalisation, raised before any request is sent, or an
    [AttributeError] met on a well-formed plate while the answer of the
    service is read. *)
Theorem check_plate_raises_only env self (raw : string) w e w' :
  check_plate env self raw w = (Raise e, w') ->
  (_normalize_plate raw = Raise e /\ exn_cls e = InvalidPlateError /\ w' = w) \/
  (succeeds (_normalize_plate raw) /\ exn_cls e = AttributeError).
Proof.
  intros Hc. destruct (check_plate_raises env self raw w e w' Hc) as [[Hn He]|H].
  - left. rewrite (check_plate_invalid env self raw w e Hn) in Hc.
    by injection Hc as <-.
  - by right.
Qed.

Lemma check_plate_raises_only_witness :
  exists e, _normalize_plate "INVALID" = Raise e /\ exn_cls e = InvalidPlateError.
Proof.
  destruct (check_plate unreachable client "INVALID" start)
    as [[v|e] w'] eqn:Hc; [vm_compute in Hc; discriminate Hc|].
  destruct (check_plate_raises_only unreachable client "INVALID" start e w' Hc)
    as [(Hn & He & _)|[[n Hn] _]].
  - by exists e.
  - vm_compute in Hn. discriminate Hn.
Defined.

(** When [bulk_check] returns, its list has one entry per plate, in the
    order of the plates: the valid result for a plate that normalises, the
    placeholder with the error message for one that does not. *)
Theorem bulk_check_one_output_per_input env self plates w vs w' :
  bulk_check env self plates w = (Ok vs, w') ->
  length vs = length plates /\ Forall2 answers plates vs.
Proof. apply bulk_check_ok. Qed.

Lemma bulk_check_one_output_per_input_witness :
  exists vs w',
    bulk_check unreachable client ["B 1234 ABC"; "INVALID"] start = (Ok vs, w') /\
    length vs = 2%nat.
Proof.
  destruct (bulk_check unreachable client ["B 1234 ABC"; "INVALID"] start)
    as [[vs|e] w'] eqn:Hb; [|vm_compute in Hb; discriminate Hb].
  exists vs, w'. split; [reflexivity|].
  exact (proj1 (bulk_check_one_output_per_input _ _ _ _ _ _ Hb)).
Defined.

Lemma bulk_check_from_unreachable env self plates :
  (forall k rq, exists r msg, send env k rq = Fails r msg) ->
  forall acc w, exists vs w',
    bulk_check_from env self acc plates w = (Ok vs, w').
Proof.
  intros Hs. induction plates as [|plate rest IH]; intros acc w.
  - by eexists _, _.
  - rewrite bulk_check_from_cons.
    destruct (_normalize_plate plate) as [n|e] eqn:Hn.
    + destruct (call_api_transport_failure env self CHECK_KENDARAAN_ENDPOINT
                  (<["nopol" := n]> ∅) "GET" w (Hs (requests_sent w)))
        as (e & w1 & Hc & He).
      destruct (check_plate_fallback env self plate n w e w1 Hn Hc He)
        as (code & digits & letters & _ & _ & ->).
      apply IH.
    + rewrite (check_plate_invalid env self plate w e Hn).
      apply normalize_raise in Hn. destruct e as [c msg]. simpl in Hn. subst c.
      change (isinstance (Exn InvalidPlateError msg) TNKBError) with true.
      cbv iota. apply IH.
Qed.

(** While no request reaches the service, [bulk_check] returns for every
    list of plates, with one entry per plate. *)
Theorem bulk_check_returns_when_unreachable env self plates w :
  (forall k rq, exists r msg, send env k rq = Fails r msg) ->
  exists vs w',
    bulk_check env self plates w = (Ok vs, w') /\
    length vs = length plates.
Proof.
  intros Hs.
  destruct (bulk_check_from_unreachable env self plates Hs [] w) as (vs & w' & Hb).
  exists vs, w'. split; [exact Hb|]. by apply bulk_check_ok in Hb as [? _].
Qed.

Lemma bulk_check_returns_when_unreachable_witness :
  exists vs w',
    bulk_check unreachable client ["B 1234 ABC"; "INVALID"; ""] start = (Ok vs, w') /\
    length vs = 3%nat.
Proof.
  apply (bulk_check_returns_when_unreachable unreachable client
           ["B 1234 ABC"; "INVALID"; ""] start).
  intros k rq. exists ConnectTimeout, "connection timed out". reflexivity.
Defined.

End Isolation.

(** ** The strings that the pattern matches, and their groups *)

Module PlateLanguage.
Import PyStr Re Shape Written PyStrFacts ReFacts PlateFacts CharFacts.
Import OrchestratorFacts Validator.

#[local] Arguments match_pieces : simpl never.

Lemma span_unique (p : ascii -> bool) g : forall g' r r',
  all_chars p g = true -> all_chars p g' = true ->
  stops p r = true -> stops p r' = true ->
  g +:+ r = g' +:+ r' -> g = g' /\ r = r'.
Proof.
  induction g as [|c g IH]; intros [|c' g'] r r' Hg Hg' Hr Hr' He.
  - done.
  - exfalso. change ("" +:+ r) with r in He. subst r. simpl in *.
    apply andb_prop in Hg' as [Hc _]. by rewrite Hc in Hr.
  - exfalso. change ("" +:+ r') with r' in He. subst r'. simpl in *.
    apply andb_prop in Hg as [Hc _]. by rewrite Hc in Hr'.
  - simpl in Hg, Hg'. apply andb_prop in Hg as [_ Hg], Hg' as [_ Hg'].
    injection He as -> He. destruct (IH g' r r' Hg Hg' Hr Hr' He) as [-> ->].
    done.
Qed.

Lemma stops_after (p q : ascii -> bool) x y :
  (forall c, q c = true -> p c = false) ->
  all_chars q x = true -> (1 <= String.length x)%nat -> stops p (x +:+ y) = true.
Proof.
  intros Hqp Hx Hl. destruct x as [|c x]; simpl in *; [lia|].
  apply andb_prop in Hx as [Hc _]. by rewrite (Hqp c Hc).
Qed.

Lemma stops_gap (p : ascii -> bool) b y :
  (forall c, isspace c = true -> p c = false) ->
  gap b -> stops p y = true -> stops p (b +:+ y) = true.
Proof.
  intros Hsp [Hb Hl] Hy.
  destruct (short_space_cases b Hb Hl) as [->|(c & -> & Hc)]; [done|].
  simpl. by rewrite (Hsp c Hc).
Qed.

Lemma stops_line_end (p : ascii -> bool) t :
  (forall c, isspace c = true -> p c = false) ->
  line_end t -> stops p t = true.
Proof. intros Hsp [-> | ->]; [done|]. simpl. by rewrite Hsp. Qed.

Lemma space_not_AZ c : isspace c = true -> isAZ c = false.
Proof. each_char c. Qed.

Lemma space_not_digit c : isspace c = true -> isdigit c = false.
Proof. each_char c. Qed.

Lemma AZ_not_digit c : isAZ c = true -> isdigit c = false.
Proof. each_char c. Qed.

Lemma digit_not_AZ c : isdigit c = true -> isAZ c = false.
Proof. each_char c. Qed.

Lemma line_end_at_end t : line_end t <-> at_end t = true.
Proof.
  split; [by intros [-> | ->]|]. intros H.
  destruct (at_end_cases t H) as [-> | ->]; [by left|by right].
Qed.

Lemma written_splits s a d l : written_as s a d l -> splits PLATE_PATTERN s [a; d; l].
Proof.
  intros (b1 & b2 & t & -> & ? & ? & [? ?] & ? & ? & [? ?] & ? & ? & Ht).
  apply splits_plate; try done; try lia. by apply line_end_at_end.
Qed.

Lemma splits_written s gs :
  splits PLATE_PATTERN s gs ->
  exists a d l, gs = [a; d; l] /\ written_as s a d l.
Proof.
  intros (l1 & b1 & d & b2 & l2 & tail & -> & -> & ? & ? & ? & ? & ? & ? &
          ? & ? & ? & ? & He)%plate_splits.
  exists l1, d, l2. split; [done|]. exists b1, b2, tail.
  repeat split; try done; try lia. by apply line_end_at_end.
Qed.

(** A string is written as a plate in one way only. *)
Lemma written_unique s a d l a' d' l' :
  written_as s a d l -> written_as s a' d' l' -> a = a' /\ d = d' /\ l = l'.
Proof.
  intros (b1 & b2 & t & -> & Ha & Hla & Hb1 & Hd & Hld & Hb2 & Hl & Hll & Ht).
  intros (b1' & b2' & t' & He & Ha' & Hla' & Hb1' & Hd' & Hld' & Hb2' & Hl' & Hll' & Ht').
  assert (Hs_l : forall l t, all_chars isAZ l = true -> (1 <= String.length l)%nat ->
                   stops isspace (l +:+ t) = true).
  { intros. by apply (stops_after _ isAZ); [apply AZ_not_space|..]. }
  assert (Hs_d : forall b l t, gap b -> all_chars isAZ l = true ->
                   (1 <= String.length l)%nat -> stops isdigit (b +:+ l +:+ t) = true).
  { intros. apply stops_gap; [apply space_not_digit|done|].
    by apply (stops_after _ isAZ); [apply AZ_not_digit|..]. }
  assert (Hs_b : forall d r, all_chars isdigit d = true -> (1 <= String.length d)%nat ->
                   stops isspace (d +:+ r) = true).
  { intros. by apply (stops_after _ isdigit); [apply digit_not_space|..]. }
  assert (Hs_a : forall b d r, gap b -> all_chars isdigit d = true ->
                   (1 <= String.length d)%nat -> stops isAZ (b +:+ d +:+ r) = true).
  { intros. apply stops_gap; [apply space_not_AZ|done|].
    by apply (stops_after _ isdigit); [apply digit_not_AZ|..]. }
  destruct Hla, Hla', Hld, Hld', Hll, Hll'.
  destruct (span_unique isAZ a a'
              (b1 +:+ d +:+ b2 +:+ l +:+ t) (b1' +:+ d' +:+ b2' +:+ l' +:+ t')
              Ha Ha' ltac:(by apply Hs_a) ltac:(by apply Hs_a) He) as [<- He1].
  destruct (span_unique isspace b1 b1'
              (d +:+ b2 +:+ l +:+ t) (d' +:+ b2' +:+ l' +:+ t')
              (proj1 Hb1) (proj1 Hb1')
              ltac:(by apply Hs_b) ltac:(by apply Hs_b) He1) as [<- He2].
  destruct (span_unique isdigit d d' (b2 +:+ l +:+ t) (b2' +:+ l' +:+ t')
              Hd Hd' ltac:(by apply Hs_d) ltac:(by apply Hs_d) He2) as [<- He3].
  destruct (span_unique isspace b2 b2' (l +:+ t) (l' +:+ t')
              (proj1 Hb2) (proj1 Hb2')
              ltac:(by apply Hs_l) ltac:(by apply Hs_l) He3) as [<- He4].
  destruct (span_unique isAZ l l' t t' Hl Hl'
              ltac:(by apply stops_line_end; [apply space_not_AZ|])
              ltac:(by apply stops_line_end; [apply space_not_AZ|]) He4)
    as [<- _].
  done.
Qed.

Lemma match_written s a d l :
  match_pieces PLATE_PATTERN s = Some [a; d; l] <-> written_as s a d l.
Proof.
  split.
  - intros (a' & d' & l' & [= -> -> ->] & H)%match_sound%splits_written. done.
  - intros H. pose proof (written_splits _ _ _ _ H) as Hs.
    destruct (match_complete _ _ _ Hs) as [gs Hm]. rewrite Hm. f_equal.
    apply match_sound, splits_written in Hm as (a' & d' & l' & -> & H').
    by destruct (written_unique _ _ _ _ _ _ _ H' H) as (-> & -> & ->).
Qed.

Lemma parse_plate_written (s a d l : string) :
  _parse_plate s = Ok (a, d, l) <-> written_as s a d l.
Proof.
  rewrite <- match_written. unfold _parse_plate.
  destruct (match_pieces PLATE_PATTERN s) as [gs|] eqn:Hm.
  - pose proof Hm as (a' & d' & l' & -> & _)%match_sound%splits_written.
    split; [by intros [= -> -> ->]|by intros [= -> -> ->]].
  - split; discriminate.
Qed.



Lemma written_plain a b1 d b2 l :
  all_chars isAZ a = true -> (1 <= String.length a <= 2)%nat ->
  optional_blank b1 ->
  all_chars isdigit d = true -> (1 <= String.length d <= 4)%nat ->
  optional_blank b2 ->
  all_chars isAZ l = true -> (1 <= String.length l <= 3)%nat ->
  written_as (a +:+ b1 +:+ d +:+ b2 +:+ l) a d l.
Proof.
  intros. exists b1, b2, "". rewrite sapp_nil_r.
  repeat split; try done; try lia;
    auto using blank_space, blank_length. by left.
Qed.

Lemma normalize_plain a b1 d b2 l :
  all_chars isAZ a = true -> (1 <= String.length a <= 2)%nat ->
  optional_blank b1 ->
  all_chars isdigit d = true -> (1 <= String.length d <= 4)%nat ->
  optional_blank b2 ->
  all_chars isAZ l = true -> (1 <= String.length l <= 3)%nat ->
  _normalize_plate (a +:+ b1 +:+ d +:+ b2 +:+ l) = Ok (a +:+ b1 +:+ d +:+ b2 +:+ l).
Proof.
  intros Ha Hla Hb1 Hd Hld Hb2 Hl Hll.
  assert (Hsq : forall b, optional_blank b -> squash b = b).
  { by intros b [-> | ->]. }
  assert (Hc : collapse (a +:+ b1 +:+ d +:+ b2 +:+ l)
               = a +:+ b1 +:+ d +:+ b2 +:+ l).
  { rewrite <- (sapp_nil_r l) at 1.
    rewrite collapse_parts;
      try done; try lia; auto using blank_space, blank_length.
    by rewrite !Hsq. }
  apply normalize_ok. rewrite Hc. split; [|split; [done|]].
  - destruct a; simpl in *; [lia|done].
  - apply shape_matches. by exists a, b1, d, b2, l.
Qed.

(** The groups that [_parse_plate] finds in a string survive
    normalisation, and written out again, with single blanks or with
    none, they give a string that normalises to itself and parses into
    the same groups. *)
Theorem parse_round_trip (s a d l : string) :
  _parse_plate s = Ok (a, d, l) ->
  (exists n, _normalize_plate s = Ok n /\ _parse_plate n = Ok (a, d, l)) /\
  _normalize_plate (a +:+ " " +:+ d +:+ " " +:+ l)
    = Ok (a +:+ " " +:+ d +:+ " " +:+ l) /\
  _parse_plate (a +:+ " " +:+ d +:+ " " +:+ l) = Ok (a, d, l) /\
  _normalize_plate (a +:+ d +:+ l) = Ok (a +:+ d +:+ l) /\
  _parse_plate (a +:+ d +:+ l) = Ok (a, d, l).
Proof.
  intros Hp. pose proof Hp as Hw. apply parse_plate_written in Hw.
  destruct Hw
    as (b1 & b2 & t & -> & Ha & Hla & [Hb1 Hl1] & Hd & Hld & [Hb2 Hl2] & Hl & Hll & Ht).
  assert (He : at_end t = true) by (by apply line_end_at_end).
  split; [|split; [|split; [|split]]].
  - eexists. split.
    + apply normalize_ok. split; [|split; [reflexivity|]].
      * destruct a; simpl in *; [lia|done].
      * rewrite collapse_parts by (done || lia). apply shape_matches.
        exists a, (squash b1), d, (squash b2), l.
        repeat split; try done; try lia; apply squash_blank.
    + rewrite collapse_parts by (done || lia).
      apply parse_plate_written.
      apply written_plain; try done; apply squash_blank.
  - by apply (normalize_plain a " " d " " l); try done; right.
  - apply parse_plate_written.
    by apply (written_plain a " " d " " l); try done; right.
  - by apply (normalize_plain a "" d "" l); try done; left.
  - apply parse_plate_written.
    by apply (written_plain a "" d "" l); try done; left.
Qed.

Lemma parse_round_trip_witness :
  _parse_plate "AB1234XY" = Ok ("AB", "1234", "XY") /\
  _normalize_plate "AB 1234 XY" = Ok "AB 1234 XY" /\
  _parse_plate "AB 1234 XY" = Ok ("AB", "1234", "XY").
Proof.
  assert (H : _parse_plate "AB1234XY" = Ok ("AB", "1234", "XY"))
    by (vm_compute; reflexivity).
  split; [exact H|].
  destruct (parse_round_trip _ _ _ _ H) as (_ & H1 & H2 & _).
  split; [exact H1|exact H2].
Defined.

End PlateLanguage.

(** ** What normalisation ignores, and what it returns *)

Module NormalForm.
Import PyStr Re Shape Written PyStrFacts ReFacts PlateFacts CharFacts.
Import OrchestratorFacts Validator PlateLanguage.

#[local] Arguments match_pieces : simpl never.


Lemma normalize_by_collapse a b :
  is_empty a = is_empty b -> collapse a = collapse b ->
  _normalize_plate a = _normalize_plate b.
Proof. intros He Hc. by rewrite !normalize_unfold, He, Hc. Qed.




Lemma blank_only_upper s : blank_only s -> blank_only (upper s).
Proof.
  unfold blank_only. rewrite all_chars_upper. apply all_chars_impl.
  intros c. by rewrite isspace_upper_char.
Qed.

Lemma split_from_blanks w p :
  blank_only p -> split_from w p = flush w.
Proof.
  unfold blank_only. revert w. induction p as [|c p IH]; intros w; [done|].
  simpl. intros [Hc Hp]%andb_prop. rewrite Hc, (IH "" Hp). apply app_nil_r.
Qed.

Lemma split_from_blank_run w p s :
  blank_only p -> p <> "" -> split_from w (p +:+ s) = flush w ++ split s.
Proof.
  unfold blank_only. revert w.
  induction p as [|c p IH]; intros w Hp Hne; [done|].
  simpl in Hp. apply andb_prop in Hp as [Hc Hp].
  rewrite sapp_cons. simpl. rewrite Hc. f_equal.
  destruct p as [|c' p]; [done|]. by rewrite (IH "" Hp).
Qed.

Lemma split_blank_prefix p s : blank_only p -> split (p +:+ s) = split s.
Proof.
  intros Hp. destruct p as [|c p]; [done|].
  unfold split at 1. by rewrite split_from_blank_run.
Qed.

Lemma split_from_blank_suffix s : forall w q,
  blank_only q -> split_from w (s +:+ q) = split_from w s.
Proof.
  induction s as [|c s IH]; intros w q Hq.
  - by apply split_from_blanks.
  - rewrite sapp_cons. simpl. destruct (isspace c); [f_equal|]; by apply IH.
Qed.

Lemma split_from_same_tail x : forall w s s',
  (forall v, split_from v s = split_from v s') ->
  split_from w (x +:+ s) = split_from w (x +:+ s').
Proof.
  induction x as [|c x IH]; intros w s s' H; [apply H|].
  rewrite !sapp_cons. simpl. destruct (isspace c); [f_equal|]; by apply IH.
Qed.

Lemma normalize_padded (raw p q : string) :
  blank_only p -> blank_only q -> raw <> "" ->
  _normalize_plate (p +:+ raw +:+ q) = _normalize_plate raw.
Proof.
  intros Hp Hq Hraw. apply normalize_by_collapse.
  - destruct raw; [done|]. by destruct p.
  - unfold collapse. rewrite !upper_sapp.
    rewrite split_blank_prefix by (by apply blank_only_upper).
    unfold split. by rewrite split_from_blank_suffix by (by apply blank_only_upper).
Qed.

(** White space before and after the plate is of no account, and neither
    is the length of a run of white space inside it. *)
Theorem normalize_ignores_spacing (raw p q x y ws : string) :
  blank_only p -> blank_only q -> blank_only ws ->
  raw <> "" -> ws <> "" ->
  _normalize_plate (p +:+ raw +:+ q) = _normalize_plate raw /\
  _normalize_plate (x +:+ ws +:+ y) = _normalize_plate (x +:+ " " +:+ y).
Proof.
  intros Hp Hq Hws Hraw Hne. split; [by apply normalize_padded|].
  apply normalize_by_collapse.
  - destruct ws; [done|]. by destruct x.
  - unfold collapse. rewrite !upper_sapp. unfold split. f_equal.
    apply split_from_same_tail. intros v.
    rewrite (split_from_blank_run v (upper ws)).
    + by rewrite (split_from_blank_run v (upper " ")).
    + by apply blank_only_upper.
    + by destruct ws.
Qed.

Lemma normalize_ignores_spacing_witness :
  _normalize_plate "  b 1234 abc  " = _normalize_plate "b 1234 abc" /\
  _normalize_plate "b    1234 abc" = _normalize_plate "b 1234 abc".
Proof.
  split.
  - apply (proj1 (normalize_ignores_spacing "b 1234 abc" "  " "  " "" "" " "
                    eq_refl eq_refl eq_refl ltac:(discriminate) ltac:(discriminate))).
  - apply (proj2 (normalize_ignores_spacing "b" "" "" "b" "1234 abc" "    "
                    eq_refl eq_refl eq_refl ltac:(discriminate) ltac:(discriminate))).
Defined.




End NormalForm.

(** ** The remote gateway, outcome by outcome *)

Module GatewayFacts.
Import PyStr Shape Gateway PyStrFacts ClientFacts.

#[local] Opaque REGION_CODES.

Section WithClient.

Variable env : Env.
Variable self : TNKBClient.

(** The handlers of [_call_api], applied to what the body of its [try]
    does with the outcome of the request. *)
Lemma call_api_run endpoint params method w :
  _call_api env self endpoint params method w =
    match send env (requests_sent w) (request_of self endpoint params method) with
    | Fails r msg =>
        if issubclass (Requests r) (Requests Timeout) then
          (raise TimeoutError
             ("API request timeout after " +:+ str_Z (timeout self) +:+ "s"),
           sent w)
        else if issubclass (Requests r) (Requests ConnectionError) then
          (raise NetworkError ("Network connection error: " +:+ msg), sent w)
        else (raise APIError ("API request failed: " +:+ msg), sent w)
    | Responds resp =>
        match raise_for_status resp with
        | Raise e => (raise APIError ("API request failed: " +:+ exn_msg e), sent w)
        | Ok _ =>
            match body resp with
            | JsonFails true msg =>
                (raise APIError ("API request failed: " +:+ msg), sent w)
            | JsonFails false msg =>
                (raise APIError ("Invalid API response: " +:+ msg), sent w)
            | JsonValue (VDict d) =>
                if Value.truthy (default VNone (d !! "success")) then
                  (Ok (default (VDict d) (d !! "data")), sent w)
                else
                  (raise APIError
                     ("API error: " +:+
                      str_value env (default (VStr "Unknown error") (d !! "message"))),
                   sent w)
            | JsonValue v => (Value.no_attribute v "get", sent w)
            end
        end
    end.
Proof.
  unfold _call_api, request_of, try_except, mbind, M_bind, session_request,
    lift, mraise, sent.
  destruct (String.eqb _ _);
    (destruct (send env _ _) as [r msg|resp];
     [by destruct r|]);
    unfold raise_for_status, json;
    (destruct ((400 <=? status_code resp) && (status_code resp <? 500))%Z;
     [done|]);
    (destruct ((500 <=? status_code resp) && (status_code resp <? 600))%Z;
     [done|]);
    (destruct (body resp) as [[| | | | | |d]|[] ?]; try done);
    cbn; by destruct (Value.truthy (default VNone (d !! "success"))).
Qed.

Lemma raise_for_status_ok resp :
  error_status (status_code resp) = false -> raise_for_status resp = Ok tt.
Proof.
  unfold error_status, raise_for_status. intros H.
  destruct (400 <=? status_code resp)%Z eqn:H1,
           (status_code resp <? 500)%Z eqn:H2,
           (500 <=? status_code resp)%Z eqn:H3,
           (status_code resp <? 600)%Z eqn:H4; try done; simpl in *; lia.
Qed.

Lemma raise_for_status_raises resp :
  error_status (status_code resp) = true ->
  exists msg, raise_for_status resp = raise (Requests HTTPError) msg.
Proof.
  unfold error_status, raise_for_status. intros H.
  destruct (400 <=? status_code resp)%Z eqn:H1,
           (status_code resp <? 500)%Z eqn:H2,
           (500 <=? status_code resp)%Z eqn:H3,
           (status_code resp <? 600)%Z eqn:H4;
    try done; simpl in *; try lia; by eexists.
Qed.

(** A request that fails in transport: a timeout of either kind becomes
    [TimeoutError] (a [ConnectTimeout] too, although it is a
    [ConnectionError] as well, since the clause for [Timeout] comes
    first), another connection failure becomes [NetworkError], and every
    other exception of [requests] becomes [APIError]. One request has
    been sent; the clock and the log are untouched. *)
Theorem call_api_transport_errors endpoint params method w r msg :
  send env (requests_sent w) (request_of self endpoint params method)
    = Fails r msg ->
  (r ∈ [Timeout; ConnectTimeout; ReadTimeout] ->
   _call_api env self endpoint params method w =
     (raise TimeoutError
        ("API request timeout after " +:+ str_Z (timeout self) +:+ "s"),
      sent w)) /\
  (r ∈ [ConnectionError; ProxyError; SSLError] ->
   _call_api env self endpoint params method w =
     (raise NetworkError ("Network connection error: " +:+ msg), sent w)) /\
  (r ∈ [RequestException; HTTPError; TooManyRedirects; RetryError;
        InvalidJSONError; RequestsJSONDecodeError] ->
   _call_api env self endpoint params method w =
     (raise APIError ("API request failed: " +:+ msg), sent w)).
Proof.
  intros Hs. rewrite call_api_run, Hs.
  repeat split; intros Hin; destruct r; try reflexivity;
    exfalso; apply list_elem_of_In in Hin; simpl in Hin; intuition congruence.
Qed.

(** [_call_api] returns exactly when the answer has no error status and
    its body decodes to a dict whose [success] is truthy; it then returns
    the value under [data], or the whole dict when there is no [data]. *)
Theorem call_api_returns_iff endpoint params method w payload w' :
  _call_api env self endpoint params method w = (Ok payload, w') <->
  exists resp d,
    send env (requests_sent w) (request_of self endpoint params method)
      = Responds resp /\
    error_status (status_code resp) = false /\
    body resp = JsonValue (VDict d) /\
    Value.truthy (default VNone (d !! "success")) = true /\
    payload = default (VDict d) (d !! "data") /\
    w' = sent w.
Proof.
  rewrite call_api_run. unfold raise, Value.no_attribute. split.
  - destruct (send env _ _) as [r msg|resp].
    + by repeat case_match.
    + destruct (error_status (status_code resp)) eqn:Hst.
      * destruct (raise_for_status_raises resp Hst) as [m ->]. by unfold raise.
      * rewrite raise_for_status_ok by done.
        destruct (body resp) as [[| | | | | |d]|[] ?] eqn:Hb; try done.
        destruct (Value.truthy _) eqn:Ht; [|done].
        intros [= <- <-]. by exists resp, d.
  - intros (resp & d & -> & Hst & -> & -> & -> & ->).
    by rewrite raise_for_status_ok.
Qed.

(** An answer that [_call_api] turns down: an error status makes it raise
    [APIError] whatever the body is; so does a body that is not JSON, and a
    dict whose [success] is missing or falsy, with the [message] of the
    dict in the error. A body that decodes to anything but a dict makes it
    raise [AttributeError]. *)
Theorem call_api_rejections endpoint params method w resp :
  send env (requests_sent w) (request_of self endpoint params method)
    = Responds resp ->
  (error_status (status_code resp) = true ->
   exists msg,
     _call_api env self endpoint params method w = (raise APIError msg, sent w)) /\
  (error_status (status_code resp) = false ->
   (forall by_requests m, body resp = JsonFails by_requests m ->
      exists msg,
        _call_api env self endpoint params method w
          = (raise APIError msg, sent w)) /\
   (forall d, body resp = JsonValue (VDict d) ->
      Value.truthy (default VNone (d !! "success")) = false ->
      _call_api env self endpoint params method w =
        (raise APIError
           ("API error: " +:+
            str_value env (default (VStr "Unknown error") (d !! "message"))),
         sent w)) /\
   (forall v, body resp = JsonValue v -> (forall d, v <> VDict d) ->
      _call_api env self endpoint params method w =
        (raise AttributeError
           ("'" +:+ Value.type_name v +:+ "' object has no attribute 'get'"),
         sent w))).
Proof.
  intros Hs. rewrite !call_api_run, Hs. split.
  - intros Hst. destruct (raise_for_status_raises resp Hst) as [m ->].
    by eexists.
  - intros Hst. rewrite raise_for_status_ok by done. repeat split.
    + intros b m ->. destruct b; by eexists.
    + intros d -> Ht. by rewrite Ht.
    + intros v -> Hv. destruct v; try done. by destruct (Hv d).
Qed.

End WithClient.

Lemma call_api_transport_errors_witness :
  _call_api Scenarios.unreachable Scenarios.client CHECK_KENDARAAN_ENDPOINT
    ∅ "get" Scenarios.start
  = (raise TimeoutError "API request timeout after 10s", mkWorld 1 0 []).
Proof.
  apply (proj1 (call_api_transport_errors Scenarios.unreachable Scenarios.client
                  CHECK_KENDARAAN_ENDPOINT ∅ "get" Scenarios.start
                  ConnectTimeout "connection timed out" eq_refl)).
  apply list_elem_of_In. simpl. tauto.
Defined.

Lemma call_api_rejections_witness :
  _call_api Scenarios.answers_array Scenarios.client CHECK_KENDARAAN_ENDPOINT
    ∅ "GET" Scenarios.start
  = (raise AttributeError "'list' object has no attribute 'get'", mkWorld 1 0 []).
Proof.
  apply (proj2 (proj2 (proj2 (call_api_rejections Scenarios.answers_array
                  Scenarios.client CHECK_KENDARAAN_ENDPOINT ∅ "GET"
                  Scenarios.start _ eq_refl) eq_refl)) (VList []) eq_refl).
  intros d. discriminate.
Defined.

End GatewayFacts.

(** ** Results and costs of the orchestrator *)

Module OrchestratorCosts.
Import PyStr Re Shape Written Gateway Accounting.
Import PyStrFacts ReFacts PlateFacts ClientFacts OrchestratorFacts.
Import NormalForm GatewayFacts Scenarios.

#[local] Arguments match_pieces : simpl never.
#[local] Opaque REGION_CODES.

Section WithClient.

Variable env : Env.
Variable self : TNKBClient.




Lemma check_plate_ok_world raw w v w' :
  check_plate env self raw w = (Ok v, w') ->
  requests_sent w' = S (requests_sent w) /\
  clock_reads w' = S (clock_reads w) /\
  created_at v = now env (clock_reads w) /\
  (log w' = log w \/ exists m, log w' = log w ++ [("WARNING", m)]).
Proof.
  rewrite check_plate_run.
  destruct (_normalize_plate raw) as [n|e0]; [|done].
  destruct (_parse_plate n) as [[[a d] l]|e0]; [|done].
  destruct (_call_api _ _ _ _ _ w) as [[payload|e1] w1] eqn:Hc;
    destruct (call_api_world _ _ _ _ _ _ _ _ Hc) as (Hr & Hk & Hl).
  - rewrite build_vehicle_info_run.
    destruct payload; try done.
    destruct (Value.upper _); [|done].
    rewrite VehicleInfo_new_run. intros [= <- <-]. simpl.
    rewrite Hr, Hk, Hl. auto.
  - destruct (isinstance e1 APIError); [|done].
    rewrite parse_locally_run. intros [= <- <-]. simpl.
    rewrite Hr, Hk, Hl. repeat split; eauto.
Qed.

Lemma check_plate_raise_world raw w e w' :
  check_plate env self raw w = (Raise e, w') ->
  (well_formed raw = false /\ exn_cls e = InvalidPlateError /\ w' = w) \/
  (well_formed raw = true /\ exn_cls e = AttributeError /\ w' = sent w).
Proof.
  unfold well_formed. rewrite check_plate_run.
  destruct (_normalize_plate raw) as [n|e0] eqn:Hn.
  - destruct (normalize_then_parse raw n Hn) as [[[a d] l] ->].
    intros H. right. split; [done|]. revert H.
    destruct (_call_api _ _ _ _ _ w) as [[payload|e1] w1] eqn:Hc;
      destruct (call_api_world _ _ _ _ _ _ _ _ Hc) as (Hr & Hk & Hl);
      assert (Hw : w1 = sent w)
        by (destruct w1; simpl in *; unfold sent; congruence).
    + rewrite build_vehicle_info_run. destruct payload; try (by intros [= <- <-]).
      destruct (default (VStr "") (d0 !! "region_code")); cbn;
        by intros [= <- <-].
    + destruct (isinstance e1 APIError) eqn:Hi.
      * by rewrite parse_locally_run.
      * intros [= <- <-]. split; [|done].
        destruct (call_api_raises _ _ _ _ _ _ _ _ Hc); congruence.
  - intros [= <- <-]. left. split; [done|]. split; [|done].
    by apply normalize_raise in Hn.
Qed.

(** What a call of [check_plate] costs. A malformed plate costs nothing:
    no request, no reading of the clock, no line in the log. A
    well-formed plate costs exactly one request; when a result comes
    back the clock has been read exactly once, for [created_at], and the
    log has at most one more line, a warning; when an error comes back
    nothing but the request has happened. *)
Theorem check_plate_costs (raw : string) w r w' :
  check_plate env self raw w = (r, w') ->
  (well_formed raw = false -> w' = w /\ exists e, r = Raise e) /\
  (well_formed raw = true ->
   requests_sent w' = S (requests_sent w) /\
   (forall v, r = Ok v ->
      clock_reads w' = S (clock_reads w) /\
      created_at v = now env (clock_reads w) /\
      (log w' = log w \/ exists m, log w' = log w ++ [("WARNING", m)])) /\
   (forall e, r = Raise e -> w' = sent w)).
Proof.
  intros Hc. destruct r as [v|e].
  - pose proof (check_plate_ok_world _ _ _ _ Hc) as (Hr & Hk & Ht & Hl).
    apply check_plate_ok in Hc as (n & _ & _ & _ & Hn & _).
    unfold well_formed. rewrite Hn. split; [done|]. intros _.
    split; [done|]. split; [|done]. by intros v' [= <-].
  - apply check_plate_raise_world in Hc as [(Hw & _ & ->)|(Hw & _ & ->)];
      rewrite Hw; (split; [try done|try done]); intros _;
      repeat split; eauto; done.
Qed.


End WithClient.



Lemma check_plate_costs_witness :
  exists r w',
    check_plate unreachable client "INVALID" start = (r, w') /\ w' = start.
Proof.
  destruct (check_plate unreachable client "INVALID" start) as [r w'] eqn:Hc.
  exists r, w'. split; [reflexivity|].
  apply (proj1 (check_plate_costs unreachable client "INVALID" start r w' Hc)).
  vm_compute. reflexivity.
Defined.


End OrchestratorCosts.

(** ** Bulk checks: how they compose and what they cost *)

Module BulkFacts.
Import PyStr Re Shape Written Gateway Accounting.
Import PyStrFacts ReFacts PlateFacts ClientFacts OrchestratorFacts.
Import NormalForm GatewayFacts OrchestratorCosts Scenarios.

#[local] Arguments match_pieces : simpl never.
#[local] Opaque REGION_CODES.

Section WithClient.

Variable env : Env.
Variable self : TNKBClient.

Lemma bulk_check_from_acc plates : forall acc w,
  bulk_check_from env self acc plates w =
    match bulk_check_from env self [] plates w with
    | (Ok vs, w') => (Ok (acc ++ vs), w')
    | (Raise e, w') => (Raise e, w')
    end.
Proof.
  induction plates as [|plate rest IH]; intros acc w.
  - cbn. by rewrite app_nil_r.
  - rewrite !bulk_check_from_cons.
    destruct (check_plate env self plate w) as [[v|e] w1].
    + rewrite (IH (acc ++ [v])), (IH ([] ++ [v])).
      destruct (bulk_check_from env self [] rest w1) as [[vs|e] w2]; [|done].
      by rewrite <- List.app_assoc.
    + destruct (isinstance e TNKBError); [|done].
      rewrite (IH (acc ++ [_])), (IH ([] ++ [_])).
      destruct (bulk_check_from env self [] rest _) as [[vs|e'] w2]; [|done].
      by rewrite <- List.app_assoc.
Qed.

Lemma bulk_check_from_app xs ys : forall acc w,
  bulk_check_from env self acc (xs ++ ys) w =
    match bulk_check_from env self acc xs w with
    | (Ok vs, w1) => bulk_check_from env self vs ys w1
    | (Raise e, w1) => (Raise e, w1)
    end.
Proof.
  induction xs as [|x xs IH]; intros acc w; [done|].
  change ((x :: xs) ++ ys) with (x :: (xs ++ ys)).
  rewrite !bulk_check_from_cons.
  destruct (check_plate env self x w) as [[v|e] w1]; [apply IH|].
  destruct (isinstance e TNKBError); [apply IH|done].
Qed.

Lemma bulk_check_split (xs ys : list string) w :
  bulk_check env self (xs ++ ys) w =
    match bulk_check env self xs w with
    | (Ok vs, w1) =>
        match bulk_check env self ys w1 with
        | (Ok us, w2) => (Ok (vs ++ us), w2)
        | (Raise e, w2) => (Raise e, w2)
        end
    | (Raise e, w1) => (Raise e, w1)
    end.
Proof.
  unfold bulk_check. rewrite bulk_check_from_app.
  destruct (bulk_check_from env self [] xs w) as [[vs|e] w1]; [|done].
  apply bulk_check_from_acc.
Qed.

(** A bulk check of two lists in a row is the bulk check of the first
    followed, in the world it leaves, by that of the second: the results
    are appended, and an error of the first keeps the second from
    starting. An empty list costs nothing and gives the empty list. *)
Theorem bulk_check_app (xs ys : list string) w :
  bulk_check env self [] w = (Ok [], w) /\
  bulk_check env self (xs ++ ys) w =
    match bulk_check env self xs w with
    | (Ok vs, w1) =>
        match bulk_check env self ys w1 with
        | (Ok us, w2) => (Ok (vs ++ us), w2)
        | (Raise e, w2) => (Raise e, w2)
        end
    | (Raise e, w1) => (Raise e, w1)
    end.
Proof. split; [reflexivity|apply bulk_check_split]. Qed.

(** One plate: the bulk check is [check_plate], with a [TNKBError]
    turned into the placeholder, one reading of the clock and one line
    in the log at the level ERROR. *)
Lemma bulk_check_one plate w :
  bulk_check env self [plate] w =
    match check_plate env self plate w with
    | (Ok v, w1) => (Ok [v], w1)
    | (Raise e, w1) =>
        if isinstance e TNKBError then
          (Ok [placeholder plate (exn_msg e) (now env (clock_reads w1))],
           ticked (logged "ERROR"
                     ("Failed to check plate " +:+ plate +:+ ": " +:+ exn_msg e)
                     w1))
        else (Raise e, w1)
    end.
Proof.
  unfold bulk_check. rewrite bulk_check_from_cons.
  destruct (check_plate env self plate w) as [[v|e] w1]; [done|].
  by destruct (isinstance e TNKBError).
Qed.

Lemma at_level_app level l1 l2 :
  at_level level (l1 ++ l2) = at_level level l1 ++ at_level level l2.
Proof. apply filter_app. Qed.

(** What a bulk check that returns has cost: one request for every
    well-formed plate and none for the others, one reading of the clock
    for every plate, and one line at the level ERROR for every malformed
    plate; the log of before is kept. *)
Theorem bulk_check_costs (plates : list string) w vs w' :
  bulk_check env self plates w = (Ok vs, w') ->
  requests_sent w' =
    (requests_sent w + length (filter (fun p => well_formed p = true) plates))%nat /\
  clock_reads w' = (clock_reads w + length plates)%nat /\
  exists lines,
    log w' = log w ++ lines /\
    length (at_level "ERROR" lines)
      = length (filter (fun p => well_formed p = false) plates).
Proof.
  revert w vs w'. induction plates as [|plate rest IH]; intros w vs w'.
  - intros [= <- <-]. cbn. rewrite !Nat.add_0_r. repeat split.
    exists []. by rewrite app_nil_r.
  - change (plate :: rest) with ([plate] ++ rest).
    rewrite (bulk_check_split [plate] rest w), bulk_check_one.
    destruct (check_plate env self plate w) as [[v|e] w1] eqn:Hc.
    + destruct (bulk_check env self rest w1) as [[us|e] w2] eqn:Hb; [|done].
      intros [= <- <-].
      destruct (IH _ _ _ Hb) as (Hr & Hk & lines & Hl & Hn).
      pose proof (check_plate_ok_world _ _ _ _ _ _ Hc) as (Hr1 & Hk1 & _ & Hl1).
      apply check_plate_ok in Hc as (n & _ & _ & _ & Hwf & _).
      assert (Hw : well_formed plate = true) by (unfold well_formed; by rewrite Hwf).
      cbn [app]. rewrite !filter_cons, Hw. simpl.
      rewrite ?decide_True by done. rewrite ?decide_False by done.
      split; [lia|]. split; [lia|].
      destruct Hl1 as [Hl1|[m Hl1]].
      * exists lines. by rewrite Hl, Hl1.
      * exists (("WARNING", m) :: lines). split.
        -- by rewrite Hl, Hl1, <- List.app_assoc.
        -- unfold at_level in *. rewrite filter_cons. simpl.
           rewrite ?decide_False by done. exact Hn.
    + apply check_plate_raise_world in Hc as [(Hw & He & ->)|(Hw & He & ->)].
      * destruct e as [c msg]. simpl in He. subst c.
        change (isinstance (Exn InvalidPlateError msg) TNKBError) with true.
        cbv iota.
        destruct (bulk_check env self rest _) as [[us|e] w2] eqn:Hb; [|done].
        intros [= <- <-].
        destruct (IH _ _ _ Hb) as (Hr & Hk & lines & Hl & Hn).
        cbn [app]. rewrite !filter_cons, Hw. simpl in *.
        rewrite ?decide_False by done. rewrite ?decide_True by done.
        split; [lia|]. split; [lia|].
        eexists (_ :: lines). split.
        -- rewrite Hl, <- List.app_assoc. reflexivity.
        -- unfold at_level in *. rewrite filter_cons. simpl.
           rewrite ?decide_True by done. simpl. by rewrite Hn.
      * destruct e as [c msg]. simpl in He. by subst c.
Qed.

End WithClient.

Lemma bulk_check_costs_witness :
  exists vs w',
    bulk_check unreachable client ["B 1234 ABC"; "INVALID"; ""; "d 1 a"] start
      = (Ok vs, w') /\
    requests_sent w' = 2%nat /\ clock_reads w' = 4%nat.
Proof.
  destruct (bulk_check unreachable client
              ["B 1234 ABC"; "INVALID"; ""; "d 1 a"] start)
    as [[vs|e] w'] eqn:Hb; [|vm_compute in Hb; discriminate Hb].
  exists vs, w'. split; [reflexivity|].
  destruct (bulk_check_costs unreachable client _ _ _ _ Hb) as (Hr & Hk & _).
  split; [exact Hr|exact Hk].
Defined.

End BulkFacts.

(** ** The listing of the regions *)

Module ListingFacts.
Import Listing PyStrFacts Validator.

#[local] Opaque REGION_CODES.

#[local] Instance by_code_total : Total by_code.
Proof. intros p q. unfold by_code. apply String.le_total. Qed.

#[local] Instance by_code_trans : Transitive by_code.
Proof. intros p q r. unfold by_code. apply transitivity. Qed.

Lemma mapM_result_ok {A B} (f : A -> result B) l :
  Forall (fun x => exists y, f x = Ok y) l ->
  exists ys, mapM f l = Ok ys /\ Forall2 (fun x y => f x = Ok y) l ys.
Proof.
  induction 1 as [|x l [y Hy] _ (ys & Hys & H2)].
  - exists []. by split; [|constructor].
  - exists (y :: ys). split; [|by constructor].
    cbn. rewrite Hy. cbn. by rewrite Hys.
Qed.

Lemma mapM_result_raises {A B} (f : A -> result B) c l :
  Forall (fun x => (exists y, f x = Ok y) \/ raises (f x) c) l ->
  Exists (fun x => raises (f x) c) l ->
  raises (mapM f l) c.
Proof.
  induction 1 as [|x l Hx _ IH]; intros He; [by inversion He|].
  destruct Hx as [[y Hy]|[msg Hx]].
  - inversion He as [? ? [msg Hx]|? ? He']; subst; [congruence|].
    destruct (IH He') as [msg Hm]. exists msg.
    cbn. rewrite Hy. cbn. by rewrite Hm.
  - exists msg. cbn. by rewrite Hx.
Qed.

Lemma region_row_ok code info name :
  info !! "name" = Some name ->
  region_row (code, info) =
    Ok (<["code" := code]> (<["name" := name]>
       (<["province" := default "" (info !! "province")]> ∅))).
Proof. intros H. unfold region_row, subscript. cbn. by rewrite H. Qed.

Lemma region_row_code item row : region_row item = Ok row -> code_of row = item.1.
Proof.
  destruct item as [code info]. unfold region_row, subscript. cbn.
  destruct (info !! "name"); [|done]. by intros [= <-].
Qed.

Lemma sorted_items_perm (table : gmap string (gmap string string)) :
  merge_sort by_code (map_to_list table) ≡ₚ map_to_list table.
Proof. apply merge_sort_Permutation. Qed.

Lemma strictly_sorted (l : list (string * gmap string string)) :
  StronglySorted by_code l -> NoDup l.*1 ->
  StronglySorted ascending l.*1.
Proof.
  induction 1 as [|p l Hl IH Hp]; [constructor|].
  rewrite fmap_cons. intros [Hnin Hnd]%NoDup_cons.
  constructor; [by apply IH|].
  apply Forall_fmap, Forall_forall. intros q Hq.
  rewrite Forall_forall in Hp. split; [by apply Hp|].
  intros Heq. apply Hnin. rewrite Heq. apply list_elem_of_fmap. by exists q.
Qed.

Section Table.

Variable table : gmap string (gmap string string).

Lemma sorted_items_nodup : NoDup (merge_sort by_code (map_to_list table)).*1.
Proof.
  rewrite sorted_items_perm. apply NoDup_fst_map_to_list.
Qed.

Lemma sorted_items_elem code info :
  (code, info) ∈ merge_sort by_code (map_to_list table) <-> table !! code = Some info.
Proof. by rewrite sorted_items_perm, elem_of_map_to_list. Qed.

Lemma list_regions_of_sorted :
  (forall code info, table !! code = Some info -> is_Some (info !! "name")) ->
  exists rows,
    list_regions_of table = Ok rows /\
    length rows = size table /\
    StronglySorted ascending (code_of <$> rows) /\
    (forall code, code ∈ (code_of <$> rows) <-> is_Some (table !! code)).
Proof.
  intros Hname. unfold list_regions_of.
  destruct (mapM_result_ok region_row (merge_sort by_code (map_to_list table)))
    as (rows & Hrows & H2).
  { apply Forall_forall. intros [code info] Hin%sorted_items_elem.
    destruct (Hname _ _ Hin) as [name Hn]. rewrite (region_row_ok _ _ _ Hn). eauto. }
  assert (Hcodes : code_of <$> rows = (merge_sort by_code (map_to_list table)).*1).
  { clear Hrows. induction H2 as [|item row items rows Hrow _ IH]; [done|].
    rewrite !fmap_cons, IH. f_equal. by apply region_row_code. }
  exists rows. split; [done|]. split; [|split].
  - rewrite <- (Forall2_length _ _ _ H2), sorted_items_perm.
    apply length_map_to_list.
  - rewrite Hcodes. apply strictly_sorted, sorted_items_nodup.
    apply StronglySorted_merge_sort; apply _.
  - intros code. rewrite Hcodes, list_elem_of_fmap. split.
    + intros ([c info] & -> & Hin%sorted_items_elem). by exists info.
    + intros [info Hin]. exists (code, info). split; [done|].
      by apply sorted_items_elem.
Qed.

Lemma mapM_result_inv {A B} (f : A -> result B) l : forall ys,
  mapM f l = Ok ys -> Forall2 (fun x y => f x = Ok y) l ys.
Proof.
  induction l as [|x l IH]; intros ys.
  - intros [= <-]. constructor.
  - cbn. destruct (f x) as [y|e] eqn:Hx; [|done]. cbn.
    destruct (mapM f l) as [rest|e]; [|done]. cbn.
    intros [= <-]. constructor; [done|]. by apply IH.
Qed.

Lemma list_regions_of_rows (rows : list (gmap string string)) :
  list_regions_of table = Ok rows ->
  forall row,
    row ∈ rows <->
    exists code info name,
      table !! code = Some info /\ info !! "name" = Some name /\
      row = <["code" := code]> (<["name" := name]>
              (<["province" := default "" (info !! "province")]> ∅)).
Proof.
  unfold list_regions_of. intros H2%mapM_result_inv row.
  assert (Hrow : forall c i r, region_row (c, i) = Ok r <->
            exists name, i !! "name" = Some name /\
              r = <["code" := c]> (<["name" := name]>
                    (<["province" := default "" (i !! "province")]> ∅))).
  { intros c i r. unfold region_row, subscript. cbn.
    destruct (i !! "name") as [name|]; cbn.
    - split; [intros [= <-]; by exists name|by intros (? & [= <-] & ->)].
    - split; [done|by intros (? & ? & _)]. }
  split.
  - intros Hin. apply list_elem_of_lookup in Hin as [k Hk].
    destruct (Forall2_lookup_r _ _ _ _ _ H2 Hk) as ([c i] & Hi & Hr).
    apply list_elem_of_lookup_2, sorted_items_elem in Hi.
    apply Hrow in Hr as (name & Hn & ->). by exists c, i, name.
  - intros (code & info & name & Hin%sorted_items_elem & Hn & ->).
    apply list_elem_of_lookup in Hin as [k Hk].
    destruct (Forall2_lookup_l _ _ _ _ _ H2 Hk) as (r & Hr & HR).
    apply Hrow in HR as (name' & Hn' & ->).
    rewrite Hn in Hn'. injection Hn' as <-.
    by apply list_elem_of_lookup_2 in Hr.
Qed.

(** An entry without a name makes the listing raise [KeyError]: the
    subscript [info['name']] has no default. *)
Theorem list_regions_missing_name (code : string) (info : gmap string string) :
  table !! code = Some info -> info !! "name" = None ->
  raises (list_regions_of table) KeyError.
Proof.
  intros Hin Hn. unfold list_regions_of. apply mapM_result_raises.
  - apply Forall_forall. intros [c i] _. unfold region_row, subscript. cbn.
    destruct (i !! "name"); [left; by eexists|right; by eexists].
  - apply Exists_exists. exists (code, info). split.
    + by apply sorted_items_elem.
    + unfold region_row, subscript. cbn. rewrite Hn. by eexists.
Qed.

End Table.

(** When every entry of the table has a name, the listing returns one
    row for each entry, in strictly ascending order of the codes, so that
    no code comes twice; the codes listed are exactly those of the
    table. *)
Theorem list_regions_sorted (table : gmap string (gmap string string)) :
  (forall code info, table !! code = Some info -> is_Some (info !! "name")) ->
  exists rows,
    list_regions_of table = Ok rows /\
    length rows = size table /\
    StronglySorted ascending (code_of <$> rows) /\
    (forall code, code ∈ (code_of <$> rows) <-> is_Some (table !! code)).
Proof. apply list_regions_of_sorted. Qed.

(** The rows of the listing are the entries of the table, no more and no
    less: each row carries the code, the name and the province of one
    entry, with the empty string for a province that is missing. *)
Theorem list_regions_rows (table : gmap string (gmap string string))
    (rows : list (gmap string string)) :
  list_regions_of table = Ok rows ->
  forall row,
    row ∈ rows <->
    exists code info name,
      table !! code = Some info /\ info !! "name" = Some name /\
      row = <["code" := code]> (<["name" := name]>
              (<["province" := default "" (info !! "province")]> ∅)).
Proof. apply list_regions_of_rows. Qed.

Lemma registry_names :
  map_Forall (fun _ info => is_Some (info !! "name") /\ is_Some (info !! "province"))
    REGION_CODES.
Proof. apply (bool_decide_unpack _). by vm_compute. Qed.

Lemma list_regions_returns : exists rows, list_regions = Ok rows.
Proof.
  destruct (list_regions_of_sorted REGION_CODES) as (rows & Hrows & _).
  { intros code info Hin. exact (proj1 (registry_names code info Hin)). }
  by exists rows.
Qed.


Lemma list_regions_sorted_witness :
  exists rows, list_regions = Ok rows /\ length rows = size REGION_CODES.
Proof.
  destruct (list_regions_sorted REGION_CODES) as (rows & Hrows & Hlen & _).
  { intros code info Hin. exact (proj1 (registry_names code info Hin)). }
  exists rows. split; [exact Hrows|exact Hlen].
Defined.

Lemma list_regions_rows_witness :
  exists rows,
    list_regions = Ok rows /\
    <["code" := "B"]> (<["name" := "Jawa Barat"]>
      (<["province" := "West Java"]> ∅)) ∈ rows.
Proof.
  destruct list_regions_returns as [rows Hl].
  exists rows. split; [exact Hl|].
  apply (list_regions_rows REGION_CODES rows Hl).
  exists "B", (region "Jawa Barat" "West Java"), "Jawa Barat".
  split; [vm_compute; reflexivity|].
  split; [vm_compute; reflexivity|].
  vm_compute. reflexivity.
Defined.

Lemma list_regions_missing_name_witness :
  raises (list_regions_of (<["ZZ" := <["province" := "Nowhere"]> ∅]> ∅)) KeyError.
Proof.
  apply (list_regions_missing_name _ "ZZ" (<["province" := "Nowhere"]> ∅));
    vm_compute; reflexivity.
Defined.

End ListingFacts.

(** ** End to end: the registry, the local fallback and the one request *)

Module EndToEnd.
Import PyStr Re Shape Written PyStrFacts ReFacts PlateFacts ClientFacts.
Import OrchestratorFacts CharFacts Validator Isolation PlateLanguage ListingFacts.
Import Scenarios.

#[local] Arguments match_pieces : simpl never.
#[local] Opaque REGION_CODES.

(** Every code of the registry is one or two capitals. *)
Lemma registry_codes_shape :
  map_Forall
    (fun code _ => all_chars isAZ code = true /\ (1 <= String.length code <= 2)%nat)
    REGION_CODES.
Proof. apply (bool_decide_unpack _). by vm_compute. Qed.

(** No region of the registry bears the name that stands for an unknown
    code. *)
Lemma registry_names_known :
  map_Forall (fun _ info => info !! "name" <> Some "Unknown Region") REGION_CODES.
Proof. apply (bool_decide_unpack _). by vm_compute. Qed.

(** Every entry of the registry can be reached through a plate: when the
    request fails in transport, [check_plate] of a plate written with a
    code of the registry, with or without blanks between its parts,
    returns a valid result for that very plate, with that code and with
    the name of the entry. *)
Theorem registry_codes_resolve env self (code : string) info (b1 d b2 l : string) w :
  REGION_CODES !! code = Some info ->
  optional_blank b1 -> optional_blank b2 ->
  all_chars isdigit d = true -> (1 <= String.length d <= 4)%nat ->
  all_chars isAZ l = true -> (1 <= String.length l <= 3)%nat ->
  (forall rq, exists r msg, send env (requests_sent w) rq = Fails r msg) ->
  exists v w',
    check_plate env self (code +:+ b1 +:+ d +:+ b2 +:+ l) w = (Ok v, w') /\
    is_valid v = true /\
    plate_number v = code +:+ b1 +:+ d +:+ b2 +:+ l /\
    region_code v = code /\
    Some (region_name v) = info !! "name".
Proof.
  intros Hin Hb1 Hb2 Hd Hld Hl Hll Hs.
  destruct (registry_codes_shape code info Hin) as [Ha Hla].
  pose proof (normalize_plain code b1 d b2 l Ha Hla Hb1 Hd Hld Hb2 Hl Hll) as Hn.
  assert (Hp : _parse_plate (code +:+ b1 +:+ d +:+ b2 +:+ l) = Ok (code, d, l)).
  { apply parse_plate_written. by apply written_plain. }
  destruct (call_api_transport_failure env self CHECK_KENDARAAN_ENDPOINT
              (<["nopol" := code +:+ b1 +:+ d +:+ b2 +:+ l]> ∅) "GET" w Hs)
    as (e & w1 & Hc & He).
  destruct (check_plate_fallback env self _ _ w e w1 Hn Hc He)
    as (c' & d' & l' & Hp' & Hu & Hcp).
  rewrite Hp in Hp'. injection Hp' as <- <- <-.
  eexists _, _. split; [exact Hcp|].
  unfold local_info. cbn [is_valid plate_number region_code region_name].
  rewrite Hu, Hin. cbn [mbind option_bind].
  destruct (registry_names code info Hin) as [[name Hname] _].
  rewrite Hname. repeat split; reflexivity.
Qed.

(** The local fallback agrees with the lookup: the result that
    [check_plate] returns after an error of the gateway names the region
    that [get_region_info] finds for its region code, and it is named
    "Unknown Region" exactly when [get_region_info] finds none. *)
Theorem fallback_agrees_with_lookup env self (raw n : string) w e w1 :
  _normalize_plate raw = Ok n ->
  _call_api env self CHECK_KENDARAAN_ENDPOINT (<["nopol" := n]> ∅) "GET" w
    = (Raise e, w1) ->
  isinstance e APIError = true ->
  exists v w',
    check_plate env self raw w = (Ok v, w') /\
    (forall info,
       get_region_info (region_code v) = Ok (Some info) ->
       info !! "name" = Some (region_name v)) /\
    (get_region_info (region_code v) = Ok None <->
     region_name v = "Unknown Region").
Proof.
  intros Hn Hc He.
  destruct (check_plate_fallback env self raw n w e w1 Hn Hc He)
    as (code & d & l & _ & Hu & Hcp).
  eexists _, _. split; [exact Hcp|].
  unfold local_info. cbn [region_code region_name].
  rewrite get_region_info_run, !Hu.
  destruct (REGION_CODES !! code) as [info|] eqn:Hin; cbn [mbind option_bind].
  - destruct (registry_names code info Hin) as [[name Hname] _].
    pose proof (registry_names_known code info Hin) as Hk.
    simpl in Hk. rewrite Hname in *. simpl. split.
    + by intros info' [= <-].
    + split; [discriminate|]. intros ->. by destruct Hk.
  - simpl. split; [discriminate|]. split; reflexivity.
Qed.

Lemma call_api_same_answer env env' self endpoint params method w :
  send env (requests_sent w) (Gateway.request_of self endpoint params method)
  = send env' (requests_sent w) (Gateway.request_of self endpoint params method) ->
  (forall v, str_value env v = str_value env' v) ->
  _call_api env self endpoint params method w
  = _call_api env' self endpoint params method w.
Proof.
  intros Hs Hv. rewrite !GatewayFacts.call_api_run, <- Hs.
  destruct (send env _ _) as [r msg|resp]; [done|].
  destruct (raise_for_status resp); [|done].
  destruct (body resp) as [[| | | | | |d]|[] ?]; try done.
  by rewrite Hv.
Qed.

(** [check_plate] asks the service one question and learns nothing else
    from its surroundings: two runs in which the request for the
    normalised plate (a GET of the check endpoint with [nopol] set to
    it, under the timeout and the certificate setting of the client)
    has the same outcome, and the clock shows the same time, give the
    same result, whatever the service would have answered to any other
    request. *)
Theorem check_plate_single_question env env' self (raw n : string) w :
  _normalize_plate raw = Ok n ->
  send env (requests_sent w)
    (Gateway.request_of self CHECK_KENDARAAN_ENDPOINT (<["nopol" := n]> ∅) "GET")
  = send env' (requests_sent w)
      (Gateway.request_of self CHECK_KENDARAAN_ENDPOINT (<["nopol" := n]> ∅) "GET") ->
  now env (clock_reads w) = now env' (clock_reads w) ->
  (forall v, str_value env v = str_value env' v) ->
  check_plate env self raw w = check_plate env' self raw w.
Proof.
  intros Hn Hs Ht Hv. rewrite !check_plate_run, Hn.
  destruct (_parse_plate n) as [[[code d] l]|e]; [|done].
  rewrite <- (call_api_same_answer env env' self _ _ _ w Hs Hv).
  destruct (_call_api env self _ _ _ w) as [[payload|e] w1] eqn:Hc;
    destruct (call_api_world _ _ _ _ _ _ _ _ Hc) as (_ & Hk & _).
  - rewrite !build_vehicle_info_run.
    destruct payload as [| | | | | |dict]; try reflexivity.
    destruct (Value.upper _) as [u|]; [|reflexivity].
    by rewrite !VehicleInfo_new_run, Hk, Ht.
  - destruct (isinstance e APIError); [|done].
    rewrite !parse_locally_run. cbn. by rewrite Hk, Ht.
Qed.

Lemma registry_codes_resolve_witness :
  exists v w',
    check_plate unreachable client "AB 12 C" start = (Ok v, w') /\
    region_code v = "AB" /\ region_name v = "Padang".
Proof.
  destruct (registry_codes_resolve unreachable client "AB"
              (region "Padang" "West Sumatra") " " "12" " " "C" start)
    as (v & w' & Hc & _ & _ & Hr & Hname).
  - vm_compute. reflexivity.
  - by right.
  - by right.
  - reflexivity.
  - simpl. lia.
  - reflexivity.
  - simpl. lia.
  - intros rq. exists ConnectTimeout, "connection timed out". reflexivity.
  - exists v, w'. split; [exact Hc|]. split; [exact Hr|].
    vm_compute in Hname. by injection Hname.
Defined.

Lemma fallback_agrees_with_lookup_witness :
  exists v w',
    check_plate unreachable client "zz 1 a" start = (Ok v, w') /\
    region_name v = "Unknown Region".
Proof.
  destruct (fallback_agrees_with_lookup unreachable client "zz 1 a" "ZZ 1 A" start
              (Exn TimeoutError "API request timeout after 10s") (mkWorld 1 0 []))
    as (v & w' & Hc & _ & Hu).
  - vm_compute. reflexivity.
  - vm_compute. reflexivity.
  - reflexivity.
  - exists v, w'. split; [exact Hc|]. apply Hu.
    injection Hc as <- _. vm_compute. reflexivity.
Defined.

Lemma check_plate_single_question_witness :
  check_plate unreachable client "b 1 a" start
  = check_plate
      (mkEnv (fun k _ =>
                match k with
                | O => Fails ConnectTimeout "connection timed out"
                | S _ => ok_response (VList [])
                end) clock str_scalar)
      client "b 1 a" start.
Proof.
  apply (check_plate_single_question unreachable _ client "b 1 a" "B 1 A" start);
    [vm_compute; reflexivity|reflexivity|reflexivity|reflexivity].
Defined.

End EndToEnd.
